(** * Federated event search: a shallow embedding of [search-events.ts]

    The development follows [src/shared/tools/search-events.ts]: the
    helper functions ([formatEventLine], [pickFields], [getEventStartTime],
    [matchesQuerySubstring]) and the tool's [handler].  Asynchronous calls
    to the calendar service are modelled by explicit passing of a call
    trace: every function that talks to the service returns the list of
    calls it issued together with its value.

    Modelling conventions.
    - A JavaScript string is its UTF-8 encoding, a [string]; on well-formed
      strings [includes] is the same relation on either encoding.
    - The built-ins whose result the language or the engine fixes outside
      this file are section variables: [toLowerCase] is
      [String.prototype.toLowerCase], [Function_toString] is the source
      text of a built-in function, [Date_getTime] is
      [new Date(s).getTime()] ([Some ms] for a time value, [None] for NaN).
    - An optional property is an [option]; JavaScript truthiness of an
      optional string is [truthy] (absent and the empty string are falsy).
    - A promise that rejects is [Threw message]; one that resolves is
      [Returned value].
    - An object is its own properties; the members every object inherits
      from [Object.prototype] are [objectPrototypeMembers]. *)

From Stdlib Require Import ZArith String Ascii List Bool Permutation Sorted.
From stdpp Require Import gmap strings list pretty.

Local Open Scope string_scope.

(** String concatenation unfolds on a constructor, as the proofs below expect. *)
#[local] Arguments String.append !_ _ : simpl nomatch.

(** ** JavaScript strings *)

Fixpoint startsWith (s p : string) {struct p} : bool :=
  match p, s with
  | EmptyString, _ => true
  | String _ _, EmptyString => false
  | String a p', String b s' => Ascii.eqb a b && startsWith s' p'
  end.

(** [String.prototype.includes]: [sub] occurs in [s] at some position. *)
Fixpoint includes (s sub : string) : bool :=
  startsWith s sub ||
  match s with
  | EmptyString => false
  | String _ s' => includes s' sub
  end.

(** [Array.prototype.join]. *)
Definition join (sep : string) (l : list string) : string := String.concat sep l.

(** Truthiness of an optional string: [undefined] and [''] are falsy. *)
Definition truthy (o : option string) : bool :=
  match o with
  | Some s => negb (String.eqb s "")
  | None => false
  end.

(** [a || b] on optional strings. *)
Definition jsOr (a b : option string) : option string :=
  if truthy a then a else b.

(** [a || d] with a string literal on the right. *)
Definition jsOrDefault (a : option string) (d : string) : string :=
  match a with
  | Some s => if String.eqb s "" then d else s
  | None => d
  end.

(** ** Promises *)

Inductive Outcome (A : Type) : Type :=
  | Returned (value : A)
  | Threw (message : string).
Arguments Returned {A} value.
Arguments Threw {A} message.

(** ** Data model ([services/google-calendar.js] types, as the tool uses them) *)

Module EventDateTime.
(** Modelled from the spec: the start/end of an event, either an instant
    ([dateTime]) or an all-day date ([date]); the type lives in
    [services/google-calendar.js]. *)
Record t : Type := mk { dateTime : option string; date : option string }.
End EventDateTime.

Module Attendee.
(** Modelled from the spec: an attendee with email, displayName,
    self-flag and responseStatus. *)
Record t : Type := mk {
  email : option string;
  displayName : option string;
  self : option bool;
  responseStatus : option string }.
End Attendee.

(** A property value: a string, a start or end, an attendee list, an
    opaque payload, or the member of that name that every object inherits
    from [Object.prototype]. *)
Inductive JSValue : Type :=
  | VString (s : string)
  | VDateTime (d : EventDateTime.t)
  | VAttendees (l : list Attendee.t)
  | VOpaque (payload : string)
  | VInherited (name : string).

Module CalendarEvent.
(** Modelled from the spec: the event record of
    [services/google-calendar.js]; one optional property per name of
    [ALL_FIELDS] (less the two calendar properties the tool adds), and
    [others], the further own properties the service put on the event,
    under names other than those.  Properties the tool never inspects
    carry an opaque payload. *)
Record t : Type := mk {
  id : option string;
  summary : option string;
  description : option string;
  start : option EventDateTime.t;
  end_ : option EventDateTime.t;
  location : option string;
  attendees : option (list Attendee.t);
  organizer : option string;
  creator : option string;
  htmlLink : option string;
  hangoutLink : option string;
  conferenceData : option string;
  status : option string;
  eventType : option string;
  visibility : option string;
  colorId : option string;
  recurringEventId : option string;
  recurrence : option string;
  others : gmap string JSValue }.
End CalendarEvent.

Module CalendarListItem.
(** A calendar descriptor, as lines 204-208 build it. *)
Record t : Type := mk { id : string; summary : string; accessRole : string }.
End CalendarListItem.

Module CalendarList.
(** Modelled from the spec: the answer of the source-listing capability,
    of which the tool reads [items]. *)
Record t : Type := mk { items : list CalendarListItem.t }.
End CalendarList.

(** Extended event type with calendar info. *)
Module EventWithCalendar.
Record t : Type := mk {
  event : CalendarEvent.t;
  calendarId : string;
  calendarName : string }.
End EventWithCalendar.

Inductive OrderBy : Type := startTime | updated.

Inductive EventType : Type :=
  | default_ | birthday | focusTime | outOfOffice | workingLocation.

(** [z.union([z.literal('all'), z.string(), z.array(z.string())])]. *)
Inductive CalendarIdArg : Type :=
  | CalId (id : string)
  | CalIds (ids : list string).

(** The arguments as [InputSchema] types them. *)
Module Args.
Record t : Type := mk {
  calendarId : CalendarIdArg;
  timeMin : option string;
  timeMax : option string;
  query : option string;
  maxResults : option Z;
  eventTypes : option (list EventType);
  orderBy : option OrderBy;
  pageToken : option string;
  fields : option (list string);
  singleEvents : option bool }.
End Args.

Module ListEventsParams.
(** The argument of [client.listEvents], as lines 248-261 build it. *)
Record t : Type := mk {
  calendarId : string;
  timeMin : option string;
  timeMax : option string;
  maxResults : Z;
  singleEvents : option bool;
  orderBy : option OrderBy;
  eventTypes : option (list EventType);
  pageToken : option string }.
End ListEventsParams.

Module ListEventsResult.
(** Modelled from the spec: the answer of the event-listing capability,
    [{items, nextPageToken?}]. *)
Record t : Type := mk {
  items : list CalendarEvent.t;
  nextPageToken : option string }.
End ListEventsResult.

(** The calendar service as the handler sees it: the answers of
  [listCalendars()] and of [listEvents(params)]. *)
Module Client.
Record t : Type := mk {
  listCalendars : Outcome CalendarList.t;
  listEvents : ListEventsParams.t -> Outcome ListEventsResult.t }.
End Client.

(** A request sent to the calendar service. *)
Inductive Call : Type :=
  | CallListCalendars
  | CallListEvents (params : ListEventsParams.t).

Definition isListEvents (c : Call) : bool :=
  match c with
  | CallListEvents _ => true
  | CallListCalendars => false
  end.

Module Context.
Record t : Type := mk { providerToken : option string }.
End Context.

Module StructuredContent.
Record t : Type := mk {
  items : list (gmap string JSValue);
  calendarsSearched : list string;
  nextPageToken : option string }.
End StructuredContent.

Inductive ContentBlock : Type :=
  | TextBlock (text : string).

Module ToolResult.
Record t : Type := mk {
  isError : option bool;
  content : list ContentBlock;
  structuredContent : option StructuredContent.t }.
End ToolResult.

(** One entry of [results]: what a calendar's search promise resolved to. *)
Module SearchResult.
Record t : Type := mk {
  calendar : CalendarListItem.t;
  events : list EventWithCalendar.t;
  nextPageToken : option string;
  error : option string }.
End SearchResult.

(** ** Constants *)

Definition DEFAULT_FIELDS : list string :=
  [ "id"; "summary"; "start"; "end"; "location"; "htmlLink"; "status";
    "attendees"; "calendarId"; "calendarName" ].

Definition ALL_FIELDS : list string :=
  [ "id"; "summary"; "description"; "start"; "end"; "location"; "attendees";
    "organizer"; "creator"; "htmlLink"; "hangoutLink"; "conferenceData";
    "status"; "eventType"; "visibility"; "colorId"; "recurringEventId";
    "recurrence"; "calendarId"; "calendarName" ].

(** The names of the members every object inherits from
    [Object.prototype] (ECMAScript, Annex B included), [__proto__] apart. *)
Definition objectPrototypeMembers : list string :=
  [ "constructor"; "hasOwnProperty"; "isPrototypeOf"; "propertyIsEnumerable";
    "toLocaleString"; "toString"; "valueOf"; "__defineGetter__";
    "__defineSetter__"; "__lookupGetter__"; "__lookupSetter__" ].

(** ** A concrete service for the examples *)

(** RFC 3339 timestamps, the format the calendar service emits: an all-day
    date [YYYY-MM-DD] (midnight UTC) or [YYYY-MM-DDThh:mm:ss] followed by an
    optional fraction and by [Z] or a numeric offset.  [Date] gives every
    such string its time value; this instance of [Date_getTime] answers NaN
    on every other string. *)
Module Rfc3339.

Definition digit (c : ascii) : option Z :=
  let n := nat_of_ascii c in
  if (48 <=? n)%nat && (n <=? 57)%nat then Some (Z.of_nat (n - 48)) else None.

Definition num2 (a b : ascii) : option Z :=
  x ← digit a; y ← digit b; Some (10 * x + y)%Z.

Definition num4 (a b c d : ascii) : option Z :=
  x ← num2 a b; y ← num2 c d; Some (100 * x + y)%Z.

(** Days from 1970-01-01 to the civil date [y]-[m]-[d]. *)
Definition daysFromCivil (y m d : Z) : Z :=
  let y' := (if m <=? 2 then y - 1 else y)%Z in
  let era := (y' / 400)%Z in
  let yoe := (y' - era * 400)%Z in
  let mp := (if 2 <? m then m - 3 else m + 9)%Z in
  let doy := ((153 * mp + 2) / 5 + d - 1)%Z in
  let doe := (yoe * 365 + yoe / 4 - yoe / 100 + doy)%Z in
  (era * 146097 + doe - 719468)%Z.

Definition inRange (lo x hi : Z) : bool := ((lo <=? x) && (x <=? hi))%Z.

(** The fraction of a second, in milliseconds, and the rest of the string. *)
Fixpoint fractionDigits (scale : Z) (s : string) : Z * string :=
  match s with
  | String c s' =>
      match digit c with
      | Some x =>
          let (ms, rest) := fractionDigits (scale / 10) s' in
          ((x * scale + ms)%Z, rest)
      | None => (0%Z, s)
      end
  | EmptyString => (0%Z, s)
  end.

Definition fraction (s : string) : Z * string :=
  match s with
  | String "." s' => fractionDigits 100 s'
  | _ => (0%Z, s)
  end.

(** The offset of the zone designator, in minutes east of UTC. *)
Definition zoneOffset (s : string) : option Z :=
  match s with
  | String "Z" EmptyString => Some 0%Z
  | String sign (String h1 (String h2 (String ":" (String m1 (String m2 EmptyString))))) =>
      h ← num2 h1 h2; m ← num2 m1 m2;
      if negb (inRange 0 h 23 && inRange 0 m 59) then None
      else if Ascii.eqb sign "+" then Some (60 * h + m)%Z
      else if Ascii.eqb sign "-" then Some (- (60 * h + m))%Z
      else None
  | _ => None
  end.

Definition timeOfDay (s : string) : option Z :=
  match s with
  | EmptyString => Some 0%Z
  | String "T" (String h1 (String h2 (String ":" (String m1 (String m2
      (String ":" (String s1 (String s2 rest)))))))) =>
      h ← num2 h1 h2; m ← num2 m1 m2; sec ← num2 s1 s2;
      let (ms, zone) := fraction rest in
      off ← zoneOffset zone;
      if inRange 0 h 23 && inRange 0 m 59 && inRange 0 sec 59
      then Some (((h * 60 + m - off) * 60 + sec) * 1000 + ms)%Z
      else None
  | _ => None
  end.

Definition getTime (s : string) : option Z :=
  match s with
  | String y1 (String y2 (String y3 (String y4 (String "-" (String m1 (String m2
      (String "-" (String d1 (String d2 rest))))))))) =>
      y ← num4 y1 y2 y3 y4; m ← num2 m1 m2; d ← num2 d1 d2;
      t ← timeOfDay rest;
      if inRange 1 m 12 && inRange 1 d 31
      then Some (daysFromCivil y m d * 86400000 + t)%Z
      else None
  | _ => None
  end.

End Rfc3339.

(** The other built-ins, for the examples: [toLowerCase] as it acts on
    strings of ASCII characters, and the source text an engine gives a
    built-in function. *)
Module Engine.

Definition toLowerChar (c : ascii) : ascii :=
  let n := nat_of_ascii c in
  if (65 <=? n)%nat && (n <=? 90)%nat then ascii_of_nat (n + 32) else c.

Fixpoint toLowerCase (s : string) : string :=
  match s with
  | EmptyString => EmptyString
  | String c s' => String (toLowerChar c) (toLowerCase s')
  end.

Definition Function_toString (name : string) : string :=
  "function " +:+ (if String.eqb name "constructor" then "Object" else name)
    +:+ "() { [native code] }".

End Engine.

(** ** Fixtures *)

Module Fixtures.

Definition context : Context.t := Context.mk (Some "ya29.token").

Definition timed (id title start : string) : CalendarEvent.t :=
  CalendarEvent.mk (Some id) (Some title) None
    (Some (EventDateTime.mk (Some start) None)) None None None None None None
    None None None None None None None None ∅.

Definition allDay (id title day : string) : CalendarEvent.t :=
  CalendarEvent.mk (Some id) (Some title) None
    (Some (EventDateTime.mk None (Some day))) None None None None None None
    None None None None None None None None ∅.

Definition undated (id title : string) : CalendarEvent.t :=
  CalendarEvent.mk (Some id) (Some title) None None None None None None None
    None None None None None None None None None ∅.

Definition barber : CalendarEvent.t :=
  timed "e1" "Barbershop appointment" "2025-12-06T19:00:00Z".

Definition lunch : CalendarEvent.t := timed "e2" "Lunch" "2025-12-05T12:00:00+01:00".

Definition holiday : CalendarEvent.t := allDay "e3" "Holiday" "2025-12-05".

Definition note : CalendarEvent.t := undated "e4" "Unscheduled note".

Definition calendars : CalendarList.t :=
  CalendarList.mk
    [ CalendarListItem.mk "work" "Work" "owner";
      CalendarListItem.mk "home" "Home" "reader";
      CalendarListItem.mk "team" "Team" "writer";
      CalendarListItem.mk "busy" "Busy" "freeBusyReader" ].

(** A service with four calendars; listing the events of ["home"] fails,
    every other calendar has the same four events and a further page. *)
Definition client : Client.t :=
  Client.mk (Returned calendars)
    (fun params =>
       if String.eqb (ListEventsParams.calendarId params) "home"
       then Threw "Not Found"
       else Returned (ListEventsResult.mk [barber; lunch; holiday; note] (Some "NEXT"))).

Definition service (token : string) : Client.t := client.

Definition request (calendarId : CalendarIdArg) (query pageToken : option string)
    (maxResults : Z) : Args.t :=
  Args.mk calendarId None None query (Some maxResults) None None pageToken None (Some true).

(** The same service with two calendars only: ["work"] and the failing
    ["home"]. *)
Definition pairService (token : string) : Client.t :=
  Client.mk
    (Returned (CalendarList.mk
                 [ CalendarListItem.mk "work" "Work" "owner";
                   CalendarListItem.mk "home" "Home" "reader" ]))
    (Client.listEvents client).

Definition searchEverything : Args.t := request (CalId "all") None None 2.

Definition searchBarber : Args.t := request (CalId "primary") (Some "barber") None 50.

Definition pageOfEverything : Args.t := request (CalId "all") None (Some "NEXT") 50.

Definition emptyPageToken : Args.t := request (CalIds ["work"; "team"]) None (Some "") 50.

Definition searchWorkAndHome : Args.t := request (CalIds ["work"; "home"]) None None 50.

Definition work : CalendarListItem.t := CalendarListItem.mk "work" "Work" "owner".

(** A cancelled meeting that the caller, its second attendee, declined. *)
Definition organizerSeat : Attendee.t :=
  Attendee.mk (Some "ann@example.com") (Some "Ann") None (Some "accepted").

Definition ownSeat : Attendee.t :=
  Attendee.mk (Some "me@example.com") None (Some true) (Some "declined").

Definition cancelledMeeting : CalendarEvent.t :=
  CalendarEvent.mk (Some "e5") (Some "Review") None
    (Some (EventDateTime.mk (Some "2025-12-07T09:00:00Z") None)) None None
    (Some [organizerSeat; ownSeat]) None None None None None (Some "cancelled")
    None None None None None ∅.

(** An all-day event before 1970, and an event whose start is no date. *)
Definition apollo : CalendarEvent.t := allDay "e6" "Moon landing" "1969-07-20".

Definition unparsed : CalendarEvent.t := timed "e7" "Some day" "not a date".

(** A service whose calendars hold the undated note and the moon landing. *)
Definition archiveService (token : string) : Client.t :=
  Client.mk (Returned calendars)
    (fun params => Returned (ListEventsResult.mk [note; apollo] None)).

Definition searchTwenty : Args.t := request (CalId "primary") (Some "barber") None 20.

Definition emptyQuery : Args.t := request (CalId "primary") (Some "") None 20.

Definition noToken : Context.t := Context.mk (Some "").

(** A service whose calendar listing fails. *)
Definition brokenService (token : string) : Client.t :=
  Client.mk (Threw "Backend Error") (Client.listEvents client).

(** A service with one page of events in ascending order of start. *)
Definition orderedService (token : string) : Client.t :=
  Client.mk (Returned calendars)
    (fun params => Returned (ListEventsResult.mk [note; holiday; lunch; barber] None)).

Definition searchPrimary : Args.t := request (CalId "primary") None None 50.

Definition pagePrimary : Args.t := request (CalId "primary") None (Some "NEXT") 50.

Definition searchZebra : Args.t := request (CalId "primary") (Some "zebra") None 50.

Definition searchNothing : Args.t := request (CalIds []) None None 50.

Definition searchUpdated : Args.t :=
  Args.mk (CalIds ["work"; "team"]) None None None (Some 50%Z) None (Some updated)
    None None (Some true).

End Fixtures.

(** ** The handler *)

Section Handler.

(** [new Date(s).getTime()]: the time value in milliseconds, [None] for NaN. *)
Variable Date_getTime : string -> option Z.

(** [String.prototype.toLowerCase]. *)
Variable toLowerCase : string -> string.

(** [String(Object.prototype[name])] for a member that is a function: the
    source text the engine gives that built-in. *)
Variable Function_toString : string -> string.

(** [new GoogleCalendarClient(token)]. *)
Variable GoogleCalendarClient : string -> Client.t.

(** ** Helpers of the tool *)

(** [start?.dateTime || start?.date]. *)
Definition startString (event : CalendarEvent.t) : option string :=
  jsOr (CalendarEvent.start event ≫= EventDateTime.dateTime)
       (CalendarEvent.start event ≫= EventDateTime.date).

Definition isSelf (a : Attendee.t) : bool :=
  match Attendee.self a with
  | Some b => b
  | None => false
  end.

(** [`${responseMap[status]}`]: the text the looked-up value renders as,
    [None] when the lookup is [undefined].  The object literal has four own
    keys; under any other name the lookup finds what the literal inherits:
    [Object.prototype] itself under [__proto__], a built-in function under
    the names of [objectPrototypeMembers]. *)
Definition responseMap (status : string) : option string :=
  if String.eqb status "accepted" then Some "you: accepted"
  else if String.eqb status "declined" then Some "you: declined"
  else if String.eqb status "tentative" then Some "you: maybe"
  else if String.eqb status "needsAction" then Some "you: not responded"
  else if String.eqb status "__proto__" then Some "[object Object]"
  else if existsb (String.eqb status) objectPrototypeMembers
       then Some (Function_toString status)
  else None.

(** [responseMap[status] || status]: every value the lookup finds is truthy
    (a non-empty string, an object or a function). *)
Definition responseLabel (status : string) : string :=
  match responseMap status with
  | Some text => text
  | None => status
  end.

Definition formatEventLine (event : EventWithCalendar.t) : string :=
  let ev := EventWithCalendar.event event in
  let start := jsOrDefault (startString ev) "no date" in
  let title := jsOrDefault (CalendarEvent.summary ev) "(no title)" in
  let calendar :=
    if String.eqb (EventWithCalendar.calendarName event) "" then ""
    else " (" +:+ EventWithCalendar.calendarName event +:+ ")" in
  let selfAttendee := CalendarEvent.attendees ev ≫= List.find isSelf in
  let selfStatus := selfAttendee ≫= Attendee.responseStatus in
  let statusInfo :=
    if truthy selfStatus then
      let rs := jsOrDefault selfStatus "" in
      " [" +:+ responseLabel rs +:+ "]"
    else if bool_decide (CalendarEvent.status ev = Some "cancelled") then " [cancelled]"
    else "" in
  if truthy (CalendarEvent.htmlLink ev) then
    "- [" +:+ title +:+ "](" +:+ jsOrDefault (CalendarEvent.htmlLink ev) "" +:+ ") — "
      +:+ start +:+ calendar +:+ statusInfo
  else
    "- " +:+ title +:+ " — " +:+ start +:+ calendar +:+ statusInfo.

(** [field in event], with the value [event[field]]: an own property of
    the event, or else a member inherited from [Object.prototype]. *)
Definition getField (event : EventWithCalendar.t) (field : string) : option JSValue :=
  let ev := EventWithCalendar.event event in
  if String.eqb field "id" then VString <$> CalendarEvent.id ev
  else if String.eqb field "summary" then VString <$> CalendarEvent.summary ev
  else if String.eqb field "description" then VString <$> CalendarEvent.description ev
  else if String.eqb field "start" then VDateTime <$> CalendarEvent.start ev
  else if String.eqb field "end" then VDateTime <$> CalendarEvent.end_ ev
  else if String.eqb field "location" then VString <$> CalendarEvent.location ev
  else if String.eqb field "attendees" then VAttendees <$> CalendarEvent.attendees ev
  else if String.eqb field "organizer" then VOpaque <$> CalendarEvent.organizer ev
  else if String.eqb field "creator" then VOpaque <$> CalendarEvent.creator ev
  else if String.eqb field "htmlLink" then VString <$> CalendarEvent.htmlLink ev
  else if String.eqb field "hangoutLink" then VString <$> CalendarEvent.hangoutLink ev
  else if String.eqb field "conferenceData" then VOpaque <$> CalendarEvent.conferenceData ev
  else if String.eqb field "status" then VString <$> CalendarEvent.status ev
  else if String.eqb field "eventType" then VString <$> CalendarEvent.eventType ev
  else if String.eqb field "visibility" then VString <$> CalendarEvent.visibility ev
  else if String.eqb field "colorId" then VString <$> CalendarEvent.colorId ev
  else if String.eqb field "recurringEventId" then VString <$> CalendarEvent.recurringEventId ev
  else if String.eqb field "recurrence" then VOpaque <$> CalendarEvent.recurrence ev
  else if String.eqb field "calendarId" then Some (VString (EventWithCalendar.calendarId event))
  else if String.eqb field "calendarName" then Some (VString (EventWithCalendar.calendarName event))
  else
    match CalendarEvent.others ev !! field with
    | Some v => Some v
    | None =>
        if String.eqb field "__proto__" || existsb (String.eqb field) objectPrototypeMembers
        then Some (VInherited field)
        else None
    end.

(** [result[field] = value]: a new own property, except under
    [__proto__], where the assignment reaches the inherited setter and adds
    no property. *)
Definition assign (result : gmap string JSValue) (field : string) (value : JSValue)
  : gmap string JSValue :=
  if String.eqb field "__proto__" then result else <[field := value]> result.

Definition pickFields (event : EventWithCalendar.t) (fields : list string)
  : gmap string JSValue :=
  foldl (fun result field =>
           match getField event field with
           | Some v => assign result field v
           | None => result
           end) ∅ fields.

(** The searchable fields of an event, in the order the code lists them;
    an absent property is an absent entry. *)
Definition searchableFields (event : CalendarEvent.t) : list (option string) :=
  [ CalendarEvent.summary event;
    CalendarEvent.description event;
    CalendarEvent.location event ]
  ++ map Attendee.email (default [] (CalendarEvent.attendees event))
  ++ map Attendee.displayName (default [] (CalendarEvent.attendees event)).

Definition fieldMatches (lowerQuery : string) (field : option string) : bool :=
  match field with
  | Some f => negb (String.eqb f "") && includes (toLowerCase f) lowerQuery
  | None => false
  end.

Definition matchesQuerySubstring (event : CalendarEvent.t) (query : string) : bool :=
  let lowerQuery := toLowerCase query in
  existsb (fieldMatches lowerQuery) (searchableFields event).

(** ** Arrays *)

(** The sign test [Array.prototype.sort] applies to a comparator's result
    ([None] is NaN, which sorts as equal). *)
Definition isPositive (v : option Z) : bool :=
  match v with
  | Some z => (0 <? z)%Z
  | None => false
  end.

Fixpoint sortInsert {A : Type} (cmp : A -> A -> option Z) (x : A) (l : list A) : list A :=
  match l with
  | [] => [x]
  | y :: l' => if isPositive (cmp x y) then y :: sortInsert cmp x l' else x :: l
  end.

(** [Array.prototype.sort(cmp)].  ECMAScript requires the sort to be
    stable, so for a consistent comparator the result is the one stable
    insertion computes; for an inconsistent comparator (one that returns
    NaN) the language leaves the order to the implementation, and the
    theorems below assume the comparator never returns NaN. *)
Definition sort {A : Type} (cmp : A -> A -> option Z) (l : list A) : list A :=
  foldr (sortInsert cmp) [] l.

(** [Array.prototype.slice(0, k)] for an integer [k]. *)
Definition slice0 {A : Type} (l : list A) (k : Z) : list A :=
  if (k <? 0)%Z then take (Z.to_nat (Z.max (Z.of_nat (length l) + k) 0)) l
  else take (Z.to_nat k) l.

Definition getEventStartTime (event : CalendarEvent.t) : option Z :=
  let dateStr := startString event in
  if negb (truthy dateStr) then Some 0%Z
  else Date_getTime (jsOrDefault dateStr "").

(** [getEventStartTime(a) - getEventStartTime(b)]; NaN is absorbing. *)
Definition compareStart (a b : EventWithCalendar.t) : option Z :=
  match getEventStartTime (EventWithCalendar.event a),
        getEventStartTime (EventWithCalendar.event b) with
  | Some x, Some y => Some (x - y)%Z
  | _, _ => None
  end.

Definition authRequired : ToolResult.t :=
  ToolResult.mk (Some true)
    [TextBlock "Authentication required. Please authenticate with Google Calendar."]
    None.

Definition paginationError : ToolResult.t :=
  ToolResult.mk (Some true)
    [TextBlock "Pagination (pageToken) only works when searching a single calendar. Specify a calendarId to use pagination."]
    None.

Definition searchFailed (message : string) : ToolResult.t :=
  ToolResult.mk (Some true)
    [TextBlock ("Failed to search events: " +:+ message)]
    None.

Definition isAll (c : CalendarIdArg) : bool :=
  match c with
  | CalId s => String.eqb s "all"
  | CalIds _ => false
  end.

Definition canRead (cal : CalendarListItem.t) : bool :=
  existsb (String.eqb (CalendarListItem.accessRole cal)) ["owner"; "writer"; "reader"].

Definition calendarOfId (id : string) : CalendarListItem.t :=
  CalendarListItem.mk id (if String.eqb id "primary" then "Primary" else id) "reader".

(** Lines 193-218: determine [calendarsToSearch]; only the ['all'] branch
    talks to the service. *)
Definition resolveCalendars (client : Client.t) (args : Args.t)
  : list Call * Outcome (list CalendarListItem.t) :=
  match Args.calendarId args with
  | CalId s =>
      if String.eqb s "all" then
        ([CallListCalendars],
         match Client.listCalendars client with
         | Returned calendarList =>
             Returned (List.filter canRead (CalendarList.items calendarList))
         | Threw message => Threw message
         end)
      else ([], Returned [calendarOfId s])
  | CalIds ids => ([], Returned (map calendarOfId ids))
  end.

(** Line 221: [args.pageToken && calendarsToSearch.length !== 1]. *)
Definition paginationRejected (args : Args.t) (calendarsToSearch : list CalendarListItem.t)
  : bool :=
  truthy (Args.pageToken args) && negb (length calendarsToSearch =? 1)%nat.

Definition hasLocalQuery (args : Args.t) : bool := truthy (Args.query args).

Definition requestedMax (args : Args.t) : Z := default 50%Z (Args.maxResults args).

Definition fetchMultiplier (args : Args.t) : Z := if hasLocalQuery args then 10%Z else 2%Z.

Definition minFetchAmount (args : Args.t) : Z := if hasLocalQuery args then 100%Z else 10%Z.

(** Lines 252-255: the [maxResults] sent to the service. *)
Definition fetchMaxResults (args : Args.t) : Z :=
  if isAll (Args.calendarId args)
  then Z.min (Z.max (requestedMax args * fetchMultiplier args) (minFetchAmount args)) 250
  else Z.min (Z.max (requestedMax args * fetchMultiplier args) (minFetchAmount args)) 250.

Definition listEventsParams (args : Args.t) (calendar : CalendarListItem.t)
  : ListEventsParams.t :=
  ListEventsParams.mk
    (CalendarListItem.id calendar)
    (Args.timeMin args)
    (Args.timeMax args)
    (fetchMaxResults args)
    (Args.singleEvents args)
    (match Args.singleEvents args with
     | Some true => Some (default startTime (Args.orderBy args))
     | _ => Args.orderBy args
     end)
    (Args.eventTypes args)
    (Args.pageToken args).

Definition withCalendar (calendar : CalendarListItem.t) (event : CalendarEvent.t)
  : EventWithCalendar.t :=
  EventWithCalendar.mk event (CalendarListItem.id calendar) (CalendarListItem.summary calendar).

(** Lines 246-286: one search promise, with its own [try]/[catch]. *)
Definition searchCalendar (client : Client.t) (args : Args.t) (calendar : CalendarListItem.t)
  : SearchResult.t :=
  match Client.listEvents client (listEventsParams args calendar) with
  | Returned result =>
      SearchResult.mk calendar
        (map (withCalendar calendar) (ListEventsResult.items result))
        (ListEventsResult.nextPageToken result)
        None
  | Threw message => SearchResult.mk calendar [] None (Some message)
  end.

(** Line 291: [results.flatMap((r) => r.events)]. *)
Definition mergedEvents (results : list SearchResult.t) : list EventWithCalendar.t :=
  flat_map SearchResult.events results.

(** Lines 295-297. *)
Definition filterByQuery (args : Args.t) (events : list EventWithCalendar.t)
  : list EventWithCalendar.t :=
  if truthy (Args.query args) then
    List.filter
      (fun event => matchesQuerySubstring (EventWithCalendar.event event)
                      (jsOrDefault (Args.query args) ""))
      events
  else events.

(** Lines 300-303: [args.singleEvents !== false &&
    (args.orderBy === 'startTime' || !args.orderBy)]. *)
Definition sortsByStart (args : Args.t) : bool :=
  match Args.singleEvents args with
  | Some false => false
  | _ =>
      match Args.orderBy args with
      | Some startTime | None => true
      | Some updated => false
      end
  end.

Definition sortByStart (args : Args.t) (events : list EventWithCalendar.t)
  : list EventWithCalendar.t :=
  if sortsByStart args then sort compareStart events else events.

(** [allEvents] just before the cap (line 307). *)
Definition orderedEvents (args : Args.t) (results : list SearchResult.t)
  : list EventWithCalendar.t :=
  sortByStart args (filterByQuery args (mergedEvents results)).

(** Line 309. *)
Definition hasMore (args : Args.t) (results : list SearchResult.t) : bool :=
  (requestedMax args <? Z.of_nat (length (orderedEvents args results)))%Z.

(** [allEvents] after line 310. *)
Definition allEvents (args : Args.t) (results : list SearchResult.t)
  : list EventWithCalendar.t :=
  slice0 (orderedEvents args results) (requestedMax args).

(** Lines 312-313. *)
Definition selectedFields (args : Args.t) : list string :=
  match Args.fields args with
  | Some fs => if (0 <? length fs)%nat then fs else DEFAULT_FIELDS
  | None => DEFAULT_FIELDS
  end.

Definition filteredItems (args : Args.t) (results : list SearchResult.t)
  : list (gmap string JSValue) :=
  map (fun event => pickFields event (selectedFields args)) (allEvents args results).

Definition searchedCalendars (results : list SearchResult.t) : list string :=
  map (fun r => CalendarListItem.summary (SearchResult.calendar r))
      (List.filter (fun r => negb (truthy (SearchResult.error r))) results).

Definition failedCalendars (results : list SearchResult.t) : list string :=
  map (fun r => CalendarListItem.summary (SearchResult.calendar r))
      (List.filter (fun r => truthy (SearchResult.error r)) results).

Definition failedLine (results : list SearchResult.t) : string :=
  "(Failed to search: " +:+ join ", " (failedCalendars results) +:+ ")".

(** Lines 327-335. *)
Definition headerLines (args : Args.t) (results : list SearchResult.t) : list string :=
  if isAll (Args.calendarId args) && (1 <? length (searchedCalendars results))%nat then
    [ "Searched " +:+ pretty (length (searchedCalendars results)) +:+ " calendar(s): "
        +:+ join ", " (searchedCalendars results) ]
    ++ (if (0 <? length (failedCalendars results))%nat then [failedLine results] else [])
    ++ [ "" ]
  else [].

(** Lines 345-361: the lines of one event. *)
Definition eventLines (event : EventWithCalendar.t) : list string :=
  let ev := EventWithCalendar.event event in
  [ formatEventLine event ]
  ++ (if truthy (CalendarEvent.location ev)
      then [ "  location: " +:+ jsOrDefault (CalendarEvent.location ev) "" ] else [])
  ++ (match CalendarEvent.attendees ev with
      | Some attendees =>
          if (0 <? length attendees)%nat then
            let attendeeList :=
              join ", " (map (fun a => default "" (Attendee.email a)) (take 5 attendees)) in
            let more :=
              if (5 <? length attendees)%nat
              then " +" +:+ pretty (length attendees - 5)%nat +:+ " more" else "" in
            [ "  attendees: " +:+ attendeeList +:+ more ]
          else []
      | None => []
      end)
  ++ (if truthy (CalendarEvent.hangoutLink ev)
      then [ "  meet: " +:+ jsOrDefault (CalendarEvent.hangoutLink ev) "" ] else []).

Definition foundLine (n : nat) (more : bool) : string :=
  "Found " +:+ pretty n +:+ " event(s)" +:+ (if more then " (more available)" else "")
    +:+ ":" +:+ String "010" "".

(** Lines 337-363. *)
Definition bodyLines (args : Args.t) (results : list SearchResult.t) : list string :=
  if (length (allEvents args results) =? 0)%nat then
    [ "No events found matching the criteria." ]
  else
    [ foundLine (length (allEvents args results)) (hasMore args results) ]
    ++ flat_map eventLines (allEvents args results).

(** Line 368: [calendarsToSearch.length === 1 ? results[0] : null]. *)
Definition singleCalendarResult (calendarsToSearch : list CalendarListItem.t)
    (results : list SearchResult.t) : option SearchResult.t :=
  if (length calendarsToSearch =? 1)%nat then head results else None.

Definition pageTokenLine (token : string) : string :=
  String "010" "More results available. Pass pageToken: " +:+ String "034" token
    +:+ String "034" " to fetch next page.".

Definition increaseLine : string :=
  String "010" "More results available. Increase maxResults or narrow your time range.".

(** Lines 369-381. *)
Definition paginationLines (args : Args.t) (calendarsToSearch : list CalendarListItem.t)
    (results : list SearchResult.t) : list string :=
  let single := singleCalendarResult calendarsToSearch results in
  let hasResultsToShow := (0 <? length (allEvents args results))%nat in
  if hasResultsToShow && truthy (single ≫= SearchResult.nextPageToken)
     && negb (truthy (Args.query args)) then
    [ pageTokenLine (jsOrDefault (single ≫= SearchResult.nextPageToken) "") ]
  else if hasResultsToShow && hasMore args results then [ increaseLine ]
  else [].

Definition noteLine : string :=
  String "010" "Note: Use the calendarId from results when calling 'update_event' or 'delete_event'.".

(** The array [lines] when the handler joins it (line 388). *)
Definition renderLines (args : Args.t) (calendarsToSearch : list CalendarListItem.t)
    (results : list SearchResult.t) : list string :=
  headerLines args results ++ bodyLines args results
  ++ paginationLines args calendarsToSearch results ++ [ noteLine ].

(** Lines 387-394: the success result. *)
Definition respond (args : Args.t) (calendarsToSearch : list CalendarListItem.t)
    (results : list SearchResult.t) : ToolResult.t :=
  ToolResult.mk None
    [ TextBlock (join (String "010" "") (renderLines args calendarsToSearch results)) ]
    (Some (StructuredContent.mk
             (filteredItems args results)
             (searchedCalendars results)
             (singleCalendarResult calendarsToSearch results ≫= SearchResult.nextPageToken))).

(** [results], in the order of [calendarsToSearch]. *)
Definition searchAll (client : Client.t) (args : Args.t)
    (calendarsToSearch : list CalendarListItem.t) : list SearchResult.t :=
  map (searchCalendar client args) calendarsToSearch.

(** The calls the search promises issue, in the order of [calendarsToSearch]. *)
Definition searchCalls (args : Args.t) (calendarsToSearch : list CalendarListItem.t)
  : list Call :=
  map (fun calendar => CallListEvents (listEventsParams args calendar)) calendarsToSearch.

(** Line 189: [new GoogleCalendarClient(token)]. *)
Definition clientOf (context : Context.t) : Client.t :=
  GoogleCalendarClient (jsOrDefault (Context.providerToken context) "").

(** Lines 174-288: the early returns, or [calendarsToSearch] and [results]
    once every search promise has settled; with the calls issued. *)
Definition gather (args : Args.t) (context : Context.t)
  : list Call * (ToolResult.t + list CalendarListItem.t * list SearchResult.t) :=
  if negb (truthy (Context.providerToken context)) then ([], inl authRequired)
  else
    let client := clientOf context in
    match resolveCalendars client args with
    | (calls, Threw message) => (calls, inl (searchFailed message))
    | (calls, Returned calendarsToSearch) =>
        if paginationRejected args calendarsToSearch then (calls, inl paginationError)
        else
          ((calls ++ searchCalls args calendarsToSearch)%list,
           inr (calendarsToSearch, searchAll client args calendarsToSearch))
    end.

(** Lines 174-406: the calls issued to the service, and the tool result. *)
Definition handler (args : Args.t) (context : Context.t) : list Call * ToolResult.t :=
  match gather args context with
  | (calls, inl early) => (calls, early)
  | (calls, inr (calendarsToSearch, results)) =>
      (calls, respond args calendarsToSearch results)
  end.

(** ** Vocabulary of the properties *)

(** [field] contains [query] as a contiguous substring, letter case
    apart: the lower-case form of [field] has the lower-case form of
    [query] in it. *)
Definition containsIgnoreCase (field query : string) : Prop :=
  ∃ pre post, toLowerCase field = pre +:+ toLowerCase query +:+ post.

(** [f] is the title, the description, the location, or the email or the
    display name of an attendee of [ev]. *)
Definition candidateField (ev : CalendarEvent.t) (f : string) : Prop :=
  CalendarEvent.summary ev = Some f
  ∨ CalendarEvent.description ev = Some f
  ∨ CalendarEvent.location ev = Some f
  ∨ ∃ attendees a,
      CalendarEvent.attendees ev = Some attendees ∧ a ∈ attendees
      ∧ (Attendee.email a = Some f ∨ Attendee.displayName a = Some f).

(** The access levels that let the caller read events. *)
Definition readable (cal : CalendarListItem.t) : Prop :=
  CalendarListItem.accessRole cal = "owner"
  ∨ CalendarListItem.accessRole cal = "writer"
  ∨ CalendarListItem.accessRole cal = "reader".

(** The start instant of an event whose start the service can resolve;
    no start at all counts as time zero. *)
Definition startInstant (event : EventWithCalendar.t) : Z :=
  default 0%Z (getEventStartTime (EventWithCalendar.event event)).

(** The start of [event] is absent or denotes an instant. *)
Definition resolvableStart (event : EventWithCalendar.t) : Prop :=
  is_Some (getEventStartTime (EventWithCalendar.event event)).

(** [l] ascends along [key]: each element's key is at most its successor's. *)
Definition ascending {A : Type} (key : A -> Z) (l : list A) : Prop :=
  ∀ i a b, l !! i = Some a → l !! (S i) = Some b → (key a ≤ key b)%Z.

(** What the schema guarantees of [maxResults]: when given, an integer
    from 1 to 250. *)
Definition validMaxResults (args : Args.t) : Prop :=
  match Args.maxResults args with
  | Some n => (1 ≤ n ≤ 250)%Z
  | None => True
  end.

(** The request's credential is present. *)
Definition authenticated (context : Context.t) : Prop :=
  ∃ token, Context.providerToken context = Some token ∧ token ≠ "".

Definition withFields (fields : option (list string)) (args : Args.t) : Args.t :=
  Args.mk (Args.calendarId args) (Args.timeMin args) (Args.timeMax args)
    (Args.query args) (Args.maxResults args) (Args.eventTypes args)
    (Args.orderBy args) (Args.pageToken args) fields (Args.singleEvents args).

(** The first character of a rendered line. *)
Definition headChar (s : string) : option ascii :=
  match s with
  | String c _ => Some c
  | EmptyString => None
  end.

(** The text of a result's content blocks. *)
Definition texts (result : ToolResult.t) : list string :=
  map (fun block => match block with TextBlock text => text end) (ToolResult.content result).

(** The continuation token of a result's structured payload. *)
Definition structuredToken (result : ToolResult.t) : option string :=
  ToolResult.structuredContent result ≫= StructuredContent.nextPageToken.

(** The parameters of the [listEvents] calls of a trace, in order. *)
Definition listEventsOf (calls : list Call) : list ListEventsParams.t :=
  flat_map (fun call =>
              match call with
              | CallListEvents params => [params]
              | CallListCalendars => []
              end) calls.

(** The line opens the entry of an event: it starts with a dash. *)
Definition isEntryLine (line : string) : bool :=
  match headChar line with
  | Some c => Ascii.eqb c "-"
  | None => false
  end.

(** * Properties *)

(** ** Arrays: [sort] and [slice] *)

Section SortFacts.

Context {A : Type} (cmp : A -> A -> option Z) (key : A -> Z) (ok : A -> Prop).

(** On the elements of interest the comparator is the difference of keys. *)
Hypothesis cmp_key :
  ∀ a b, ok a → ok b → isPositive (cmp a b) = (key b <? key a)%Z.

Lemma sortInsert_perm (x : A) (l : list A) : sortInsert cmp x l ≡ₚ x :: l.
Proof.
  induction l as [|y l IH]; simpl; [done|].
  destruct (isPositive (cmp x y)); [|done].
  rewrite IH. apply Permutation_swap.
Qed.

Lemma sort_perm (l : list A) : sort cmp l ≡ₚ l.
Proof.
  induction l as [|x l IH]; simpl; [done|].
  rewrite sortInsert_perm. by rewrite IH.
Qed.

Lemma sort_length (l : list A) : length (sort cmp l) = length l.
Proof. by rewrite sort_perm. Qed.

Lemma sort_Forall (P : A -> Prop) (l : list A) : Forall P l → Forall P (sort cmp l).
Proof. intros H. by rewrite sort_perm. Qed.

Lemma sortInsert_sorted (x : A) (l : list A) :
  ok x → Forall ok l →
  StronglySorted (fun a b => (key a ≤ key b)%Z) l →
  StronglySorted (fun a b => (key a ≤ key b)%Z) (sortInsert cmp x l).
Proof.
  intros Hx Hl Hs. induction Hs as [|y l Hs IH Hy]; simpl.
  - repeat constructor.
  - apply Forall_cons in Hl as [Hoy Hl].
    rewrite (cmp_key x y Hx Hoy).
    destruct (Z.ltb_spec (key y) (key x)) as [Hlt|Hge].
    + constructor; [by apply IH|].
      rewrite sortInsert_perm. constructor; [lia|done].
    + constructor; [by constructor|].
      constructor; [done|].
      eapply Forall_impl; [exact Hy|]. intros z Hz; simpl in Hz. lia.
Qed.

Lemma sort_sorted (l : list A) :
  Forall ok l → StronglySorted (fun a b => (key a ≤ key b)%Z) (sort cmp l).
Proof.
  induction 1 as [|x l Hx Hl IH]; simpl; [constructor|].
  apply sortInsert_sorted; [done| |done]. by apply sort_Forall.
Qed.

(** Stability: the elements of one key keep their relative order. *)
Lemma sortInsert_stable (t : Z) (x : A) (l : list A) :
  ok x → Forall ok l →
  List.filter (fun a => (key a =? t)%Z) (sortInsert cmp x l)
  = List.filter (fun a => (key a =? t)%Z) (x :: l).
Proof.
  intros Hx Hl. induction Hl as [|y l Hy Hl IH]; [done|].
  cbn [sortInsert]. rewrite (cmp_key x y Hx Hy).
  destruct (Z.ltb_spec (key y) (key x)) as [Hlt|Hge]; [|done].
  cbn [List.filter] in *. rewrite IH.
  destruct (Z.eqb_spec (key x) t), (Z.eqb_spec (key y) t); try done. lia.
Qed.

Lemma sort_stable (t : Z) (l : list A) :
  Forall ok l →
  List.filter (fun a => (key a =? t)%Z) (sort cmp l)
  = List.filter (fun a => (key a =? t)%Z) l.
Proof.
  induction 1 as [|x l Hx Hl IH]; [done|].
  cbn [sort foldr]. fold (sort cmp l).
  rewrite sortInsert_stable; [|done|by apply sort_Forall].
  cbn [List.filter]. by rewrite IH.
Qed.

End SortFacts.

Lemma StronglySorted_ascending {A : Type} (key : A -> Z) (l : list A) :
  StronglySorted (fun a b => (key a ≤ key b)%Z) l → ascending key l.
Proof.
  induction 1 as [|x l Hs IH Hx]; intros i a b Ha Hb; [done|].
  destruct i as [|i]; simpl in *.
  - inversion Ha; subst. destruct l as [|y l]; [done|].
    inversion Hb; subst. by apply Forall_cons in Hx as [? _].
  - by eapply IH.
Qed.

Lemma ascending_take {A : Type} (key : A -> Z) (n : nat) (l : list A) :
  ascending key l → ascending key (take n l).
Proof.
  intros H i a b Ha Hb.
  apply lookup_take_Some in Ha as [Ha _], Hb as [Hb _]. by eapply H.
Qed.

Lemma ascending_le {A : Type} (key : A -> Z) (l : list A) (i j : nat) (a b : A) :
  ascending key l → (i ≤ j)%nat → l !! i = Some a → l !! j = Some b → (key a ≤ key b)%Z.
Proof.
  intros Hasc Hij Ha. revert b. induction Hij as [|j Hij IH]; intros b Hb.
  - rewrite Ha in Hb. injection Hb as ->. lia.
  - destruct (lookup_lt_is_Some_2 l j) as [c Hc].
    { apply lookup_lt_Some in Hb. lia. }
    specialize (IH c Hc). specialize (Hasc j c b Hc Hb). lia.
Qed.

Lemma filter_take_prefix {A : Type} (f : A -> bool) (n : nat) (l : list A) :
  List.filter f (take n l) `prefix_of` List.filter f l.
Proof.
  exists (List.filter f (drop n l)).
  by rewrite <- List.filter_app, take_drop.
Qed.

Lemma slice0_take {A : Type} (l : list A) (k : Z) : ∃ n, slice0 l k = take n l.
Proof. unfold slice0. destruct (k <? 0)%Z; eauto. Qed.

Lemma slice0_length {A : Type} (l : list A) (k : Z) :
  (0 ≤ k)%Z → (Z.of_nat (length (slice0 l k)) ≤ k)%Z.
Proof.
  intros Hk. unfold slice0. destruct (Z.ltb_spec k 0); [lia|].
  rewrite length_take. lia.
Qed.

Lemma slice0_nonempty {A : Type} (l : list A) (k : Z) :
  (1 ≤ k)%Z → (k < Z.of_nat (length l))%Z → length (slice0 l k) ≠ 0.
Proof.
  intros Hk Hl. unfold slice0. destruct (Z.ltb_spec k 0); [lia|].
  rewrite length_take. lia.
Qed.

Lemma elem_of_slice0 {A : Type} (x : A) (l : list A) (k : Z) : x ∈ slice0 l k → x ∈ l.
Proof.
  destruct (slice0_take l k) as [n ->]. intros H.
  rewrite <- (take_drop n l). apply elem_of_app. by left.
Qed.

(** ** Strings: [includes] and the text filter *)

Lemma append_assoc (a b c : string) : (a +:+ b) +:+ c = a +:+ (b +:+ c).
Proof. induction a as [|x a IH]; simpl; [done|]. by f_equal. Qed.

Lemma append_empty_r (a : string) : a +:+ "" = a.
Proof. induction a as [|x a IH]; simpl; [done|]. by f_equal. Qed.

Lemma startsWith_spec (s p : string) :
  startsWith s p = true ↔ ∃ post, s = p +:+ post.
Proof.
  revert s. induction p as [|a p IH]; intros s; simpl.
  - split; [intros _; by exists s|done].
  - destruct s as [|b s].
    + split; [done|]. by intros [post Hpost].
    + rewrite andb_true_iff, Ascii.eqb_eq, IH. split.
      * intros [-> [post ->]]. by exists post.
      * intros [post Hpost]. injection Hpost as -> ->. eauto.
Qed.

Lemma includes_spec (s sub : string) :
  includes s sub = true ↔ ∃ pre post, s = pre +:+ sub +:+ post.
Proof.
  induction s as [|c s IH]; simpl.
  - rewrite orb_false_r, startsWith_spec. split.
    + intros [post Hpost]. by exists "", post.
    + intros [pre [post Hpost]]. destruct pre; [by exists post|done].
  - rewrite orb_true_iff, startsWith_spec, IH. split.
    + intros [[post Hpost]|[pre [post ->]]].
      * by exists "", post.
      * by exists (String c pre), post.
    + intros [pre [post Hpost]]. destruct pre as [|c' pre]; simpl in Hpost.
      * left. by exists post.
      * right. injection Hpost as -> ->. by exists pre, post.
Qed.

(** The test the filter applies to one field: the field is not empty and
    contains the query, letter case apart. *)
Lemma fieldMatches_spec (query : string) (field : option string) :
  fieldMatches (toLowerCase query) field = true
  ↔ ∃ f, field = Some f ∧ f ≠ "" ∧ containsIgnoreCase f query.
Proof.
  unfold containsIgnoreCase. destruct field as [f|]; simpl.
  - rewrite andb_true_iff, negb_true_iff, String.eqb_neq, includes_spec. split.
    + intros [Hne H]. eauto.
    + by intros (f' & [= <-] & Hne & H).
  - split; [done|]. by intros (f & ? & _).
Qed.

Lemma searchableFields_spec (ev : CalendarEvent.t) (f : string) :
  Some f ∈ searchableFields ev ↔ candidateField ev f.
Proof.
  unfold searchableFields, candidateField.
  rewrite !elem_of_app, !elem_of_cons, elem_of_nil.
  setoid_rewrite list_elem_of_fmap.
  destruct (CalendarEvent.attendees ev) as [attendees|]; simpl; split.
  - intros [[H|[H|[H|[]]]]|[(a & H & Ha)|(a & H & Ha)]]; eauto 10.
  - intros [H|[H|[H|(l & a & [= <-] & Ha & [H|H])]]]; eauto 10.
  - intros [[H|[H|[H|[]]]]|[(a & H & Ha)|(a & H & Ha)]]; eauto 10;
      by apply elem_of_nil in Ha.
  - intros [H|[H|[H|(l & a & [=] & _)]]]; eauto 10.
Qed.

(** [matchesQuerySubstring] decides: some non-empty candidate field
    contains the query, letter case apart. *)
Lemma matchesQuerySubstring_spec (ev : CalendarEvent.t) (query : string) :
  matchesQuerySubstring ev query = true
  ↔ ∃ f, candidateField ev f ∧ f ≠ "" ∧ containsIgnoreCase f query.
Proof.
  unfold matchesQuerySubstring. rewrite existsb_exists. split.
  - intros (field & Hin & H). apply fieldMatches_spec in H as (f & -> & Hne & H).
    exists f. split; [|done]. by apply searchableFields_spec, list_elem_of_In.
  - intros (f & Hf & Hne & H). exists (Some f). split.
    + by apply list_elem_of_In, searchableFields_spec.
    + apply fieldMatches_spec; eauto.
Qed.

(** ** The handler's control flow *)

Lemma authenticated_truthy (context : Context.t) :
  authenticated context ↔ truthy (Context.providerToken context) = true.
Proof.
  unfold authenticated, truthy. split.
  - intros (token & -> & Hne). by apply negb_true_iff, String.eqb_neq.
  - destruct (Context.providerToken context) as [token|]; [|done].
    intros H. exists token. split; [done|].
    by apply String.eqb_neq, negb_true_iff.
Qed.

Lemma resolveCalendars_calls (client : Client.t) (args : Args.t) :
  (resolveCalendars client args).1
  = if isAll (Args.calendarId args) then [CallListCalendars] else [].
Proof.
  unfold resolveCalendars, isAll.
  destruct (Args.calendarId args) as [s|ids]; [|done].
  by destruct (String.eqb s "all").
Qed.

(** The handler reaches the search exactly when the credential is present,
    the calendars resolve and the pagination guard lets the request pass. *)
Lemma gather_searched (args : Args.t) (context : Context.t) (calls : list Call)
    (cals : list CalendarListItem.t) (results : list SearchResult.t) :
  gather args context = (calls, inr (cals, results))
  ↔ authenticated context
    ∧ (resolveCalendars (clientOf context) args).2 = Returned cals
    ∧ paginationRejected args cals = false
    ∧ calls = ((resolveCalendars (clientOf context) args).1 ++ searchCalls args cals)%list
    ∧ results = searchAll (clientOf context) args cals.
Proof.
  rewrite authenticated_truthy. unfold gather.
  destruct (truthy (Context.providerToken context)); simpl.
  2: { split; [done|]. by intros [? _]. }
  destruct (resolveCalendars (clientOf context) args) as [calls0 [cals0|message]]; simpl.
  2: { split; [done|]. by intros (_ & ? & _). }
  destruct (paginationRejected args cals0) eqn:Hrej.
  - split; [done|]. intros (_ & [= ->] & Hrej' & _). congruence.
  - split.
    + intros [= <- <- <-]. by rewrite Hrej.
    + intros (_ & [= ->] & _ & -> & ->). done.
Qed.

Lemma handler_searched (args : Args.t) (context : Context.t) (calls : list Call)
    (cals : list CalendarListItem.t) (results : list SearchResult.t) :
  gather args context = (calls, inr (cals, results)) →
  handler args context = (calls, respond args cals results).
Proof. intros H. unfold handler. by rewrite H. Qed.

Lemma elem_of_searchCalls (args : Args.t) (cals : list CalendarListItem.t)
    (params : ListEventsParams.t) :
  CallListEvents params ∈ searchCalls args cals
  ↔ ∃ calendar, calendar ∈ cals ∧ params = listEventsParams args calendar.
Proof.
  unfold searchCalls. rewrite list_elem_of_fmap. split.
  - intros (calendar & [= ->] & Hin). eauto.
  - intros (calendar & Hin & ->). eauto.
Qed.

(** Every [listEvents] call the handler issues is one of the search
    promises. *)
Lemma handler_listEvents_call (args : Args.t) (context : Context.t)
    (params : ListEventsParams.t) :
  CallListEvents params ∈ (handler args context).1 →
  ∃ calls cals results calendar,
    gather args context = (calls, inr (cals, results))
    ∧ calendar ∈ cals ∧ params = listEventsParams args calendar.
Proof.
  unfold handler.
  destruct (gather args context) as [calls [early|[cals results]]] eqn:Hg; simpl.
  - unfold gather in Hg.
    destruct (negb (truthy (Context.providerToken context))).
    { injection Hg as <- _. by intros ?%elem_of_nil. }
    pose proof (resolveCalendars_calls (clientOf context) args) as Hcalls.
    destruct (resolveCalendars (clientOf context) args) as [calls0 [cals0|message]];
      simpl in Hcalls.
    + destruct (paginationRejected args cals0); [|done].
      injection Hg as <- _. subst calls0.
      destruct (isAll (Args.calendarId args));
        [by intros [=]%list_elem_of_singleton | by intros ?%elem_of_nil].
    + injection Hg as <- _. subst calls0.
      destruct (isAll (Args.calendarId args));
        [by intros [=]%list_elem_of_singleton | by intros ?%elem_of_nil].
  - intros Hin. exists calls, cals, results.
    pose proof Hg as (_ & _ & _ & -> & _)%gather_searched.
    apply elem_of_app in Hin as [Hin|Hin].
    + rewrite resolveCalendars_calls in Hin.
      destruct (isAll (Args.calendarId args));
        [by apply list_elem_of_singleton in Hin | by apply elem_of_nil in Hin].
    + apply elem_of_searchCalls in Hin as (calendar & Hin & ->). eauto.
Qed.

(** ** Fetch planning *)

Lemma fetchMaxResults_eq (args : Args.t) :
  fetchMaxResults args
  = Z.min (Z.max (requestedMax args * fetchMultiplier args) (minFetchAmount args)) 250.
Proof. unfold fetchMaxResults. by destruct (isAll (Args.calendarId args)). Qed.

(** ** Resolving the calendars *)

Lemma canRead_spec (cal : CalendarListItem.t) : canRead cal = true ↔ readable cal.
Proof.
  unfold canRead, readable. cbn [existsb].
  rewrite !orb_true_iff, !String.eqb_eq. intuition congruence.
Qed.

Lemma filter_sublist {A : Type} (f : A -> bool) (l : list A) :
  List.filter f l `sublist_of` l.
Proof.
  induction l as [|x l IH]; simpl; [constructor|].
  destruct (f x); by constructor.
Qed.

(** C9: under the selector ["all"] the calendars searched are the listed
    calendars whose access role is owner, writer or reader, in the order of
    the listing; every other calendar is left out. *)
Theorem C9_all_keeps_readable (args : Args.t) (client : Client.t)
    (listing : CalendarList.t) :
  Args.calendarId args = CalId "all" →
  Client.listCalendars client = Returned listing →
  ∃ resolved,
    resolveCalendars client args = ([CallListCalendars], Returned resolved)
    ∧ resolved `sublist_of` CalendarList.items listing
    ∧ (∀ cal, cal ∈ resolved ↔ cal ∈ CalendarList.items listing ∧ readable cal)
    ∧ resolved
      = List.filter (fun cal => bool_decide (readable cal)) (CalendarList.items listing).
Proof.
  intros Hall Hlist. unfold resolveCalendars. rewrite Hall, Hlist. cbn.
  eexists. split; [done|]. split; [apply filter_sublist|]. split.
  - intros cal. rewrite list_elem_of_In, List.filter_In, canRead_spec.
    by rewrite list_elem_of_In.
  - apply List.filter_ext. intros cal.
    destruct (canRead cal) eqn:Hc; symmetry.
    + by apply bool_decide_eq_true, canRead_spec.
    + apply bool_decide_eq_false. rewrite <- canRead_spec. congruence.
Qed.

(** ** The pagination guard *)

(** C2, as amended: an authenticated request with a non-empty [pageToken]
    whose calendars resolve to a list of length other than one is answered
    with the pagination error; no [listEvents] call is issued, and the only
    call issued at all is the [listCalendars] call that resolves ["all"]. *)
Theorem C2_pagination_guard (args : Args.t) (context : Context.t) (token : string)
    (cals : list CalendarListItem.t) :
  authenticated context →
  Args.pageToken args = Some token → token ≠ "" →
  (resolveCalendars (clientOf context) args).2 = Returned cals →
  length cals ≠ 1 →
  handler args context
  = (if isAll (Args.calendarId args) then [CallListCalendars] else [], paginationError)
  ∧ ToolResult.isError (handler args context).2 = Some true
  ∧ ∀ params, CallListEvents params ∉ (handler args context).1.
Proof.
  intros Hauth Htok Hne Hres Hlen.
  assert (handler args context
          = (if isAll (Args.calendarId args) then [CallListCalendars] else [],
             paginationError)) as Hh.
  { unfold handler, gather.
    apply authenticated_truthy in Hauth. rewrite Hauth. cbn [negb].
    pose proof (resolveCalendars_calls (clientOf context) args) as Hcalls.
    destruct (resolveCalendars (clientOf context) args) as [calls0 r].
    simpl in Hres, Hcalls. subst r calls0.
    unfold paginationRejected. rewrite Htok. cbn [truthy].
    apply String.eqb_neq in Hne. rewrite Hne.
    apply Nat.eqb_neq in Hlen. by rewrite Hlen. }
  rewrite Hh. split; [done|]. split; [done|].
  intros params. cbn [fst].
  destruct (isAll (Args.calendarId args));
    [by intros [=]%list_elem_of_singleton | by intros ?%elem_of_nil].
Qed.

(** ** Merging, filtering, ordering and capping *)

Lemma elem_of_sortByStart (args : Args.t) (events : list EventWithCalendar.t)
    (e : EventWithCalendar.t) :
  e ∈ sortByStart args events ↔ e ∈ events.
Proof.
  unfold sortByStart. destruct (sortsByStart args); [|done].
  by rewrite sort_perm.
Qed.

Lemma sortByStart_length (args : Args.t) (events : list EventWithCalendar.t) :
  length (sortByStart args events) = length events.
Proof.
  unfold sortByStart. destruct (sortsByStart args); [|done]. apply sort_length.
Qed.

Lemma elem_of_filterByQuery (args : Args.t) (events : list EventWithCalendar.t)
    (q : string) (e : EventWithCalendar.t) :
  Args.query args = Some q → q ≠ "" →
  e ∈ filterByQuery args events
  ↔ e ∈ events ∧ matchesQuerySubstring (EventWithCalendar.event e) q = true.
Proof.
  intros Hq Hne. unfold filterByQuery. rewrite Hq. cbn [truthy jsOrDefault].
  apply String.eqb_neq in Hne. rewrite Hne. cbn [negb].
  by rewrite list_elem_of_In, List.filter_In, list_elem_of_In.
Qed.

Lemma elem_of_allEvents (args : Args.t) (results : list SearchResult.t)
    (e : EventWithCalendar.t) :
  e ∈ allEvents args results → e ∈ filterByQuery args (mergedEvents results).
Proof.
  unfold allEvents, orderedEvents. intros H%elem_of_slice0.
  by apply elem_of_sortByStart in H.
Qed.

Lemma requestedMax_valid (args : Args.t) :
  validMaxResults args → (1 ≤ requestedMax args ≤ 250)%Z.
Proof.
  unfold validMaxResults, requestedMax.
  destruct (Args.maxResults args) as [n|]; simpl; lia.
Qed.

Lemma orderedEvents_length (args : Args.t) (results : list SearchResult.t) :
  length (orderedEvents args results)
  = length (filterByQuery args (mergedEvents results)).
Proof. apply sortByStart_length. Qed.

Lemma foundLine_more_inj (n : nat) (b1 b2 : bool) :
  foundLine n b1 = foundLine n b2 → b1 = b2.
Proof.
  unfold foundLine. intros H.
  do 3 apply (inj (String.append _)) in H.
  by destruct b1, b2.
Qed.

Lemma headChar_foundLine (n : nat) (b : bool) : headChar (foundLine n b) = Some "F"%char.
Proof. done. Qed.

Lemma headChar_formatEventLine (event : EventWithCalendar.t) :
  headChar (formatEventLine event) = Some "-"%char.
Proof.
  unfold formatEventLine.
  by destruct (truthy (CalendarEvent.htmlLink (EventWithCalendar.event event))).
Qed.

Lemma headChar_eventLines (event : EventWithCalendar.t) (line : string) :
  line ∈ eventLines event → headChar line = Some "-"%char ∨ headChar line = Some " "%char.
Proof.
  unfold eventLines. rewrite !elem_of_app.
  intros [H|[H|[H|H]]].
  - apply list_elem_of_singleton in H as ->. left. apply headChar_formatEventLine.
  - destruct (truthy _); [|by apply elem_of_nil in H].
    apply list_elem_of_singleton in H as ->. by right.
  - destruct (CalendarEvent.attendees _) as [attendees|]; [|by apply elem_of_nil in H].
    destruct (0 <? length attendees)%nat; [|by apply elem_of_nil in H].
    apply list_elem_of_singleton in H as ->. by right.
  - destruct (truthy _); [|by apply elem_of_nil in H].
    apply list_elem_of_singleton in H as ->. by right.
Qed.

Lemma headChar_headerLines (args : Args.t) (results : list SearchResult.t) (line : string) :
  line ∈ headerLines args results → headChar line ≠ Some "F"%char.
Proof.
  unfold headerLines. destruct (_ && _); [|by intros ?%elem_of_nil].
  rewrite !elem_of_app. intros [H|[H|H]].
  - by apply list_elem_of_singleton in H as ->.
  - destruct (0 <? _)%nat; [|by apply elem_of_nil in H].
    by apply list_elem_of_singleton in H as ->.
  - by apply list_elem_of_singleton in H as ->.
Qed.

Lemma headChar_paginationLines (args : Args.t) (cals : list CalendarListItem.t)
    (results : list SearchResult.t) (line : string) :
  line ∈ paginationLines args cals results → headChar line = Some "010"%char.
Proof.
  unfold paginationLines. cbv zeta.
  destruct (_ && _ && _).
  - by intros ->%list_elem_of_singleton.
  - destruct (_ && _); [|by intros ?%elem_of_nil].
    by intros ->%list_elem_of_singleton.
Qed.

(** The only line of the rendering that starts with [F] is the count line. *)
Lemma renderLines_found (args : Args.t) (cals : list CalendarListItem.t)
    (results : list SearchResult.t) (line : string) :
  line ∈ renderLines args cals results → headChar line = Some "F"%char →
  length (allEvents args results) ≠ 0
  ∧ line = foundLine (length (allEvents args results)) (hasMore args results).
Proof.
  unfold renderLines. rewrite !elem_of_app. intros [H|[H|[H|H]]] Hhead.
  - by apply headChar_headerLines in H.
  - unfold bodyLines in H.
    destruct (Nat.eqb_spec (length (allEvents args results)) 0) as [Hz|Hnz].
    + apply list_elem_of_singleton in H as ->. done.
    + apply elem_of_app in H as [H|H].
      * by apply list_elem_of_singleton in H as ->.
      * apply list_elem_of_In, in_flat_map in H as (event & _ & H).
        apply list_elem_of_In, headChar_eventLines in H as [H|H]; congruence.
  - apply headChar_paginationLines in H. congruence.
  - apply list_elem_of_singleton in H as ->. done.
Qed.

(** ** Ordering by start time *)

Lemma compareStart_key (a b : EventWithCalendar.t) :
  resolvableStart a → resolvableStart b →
  isPositive (compareStart a b) = (startInstant b <? startInstant a)%Z.
Proof.
  unfold resolvableStart, startInstant, compareStart.
  intros [x ->] [y ->]. simpl.
  apply eq_iff_eq_true. rewrite !Z.ltb_lt. lia.
Qed.

Lemma startInstant_no_start (event : EventWithCalendar.t) :
  truthy (startString (EventWithCalendar.event event)) = false →
  getEventStartTime (EventWithCalendar.event event) = Some 0%Z
  ∧ startInstant event = 0%Z.
Proof. unfold startInstant, getEventStartTime. by intros ->. Qed.

Lemma filterByQuery_subset (args : Args.t) (events : list EventWithCalendar.t)
    (e : EventWithCalendar.t) :
  e ∈ filterByQuery args events → e ∈ events.
Proof.
  unfold filterByQuery. destruct (truthy (Args.query args)); [|done].
  rewrite !list_elem_of_In, List.filter_In. by intros [? _].
Qed.

Lemma sortsByStart_spec (args : Args.t) :
  sortsByStart args = true
  ↔ Args.singleEvents args ≠ Some false
    ∧ (Args.orderBy args = Some startTime ∨ Args.orderBy args = None).
Proof.
  unfold sortsByStart.
  destruct (Args.singleEvents args) as [[]|], (Args.orderBy args) as [[]|];
    split; (done || intuition congruence).
Qed.

(** ** Failures of single calendars *)

Lemma searchAll_calendars (client : Client.t) (args : Args.t)
    (cals : list CalendarListItem.t) :
  map SearchResult.calendar (searchAll client args cals) = cals.
Proof.
  unfold searchAll. rewrite map_map. rewrite <- (map_id cals) at 2.
  apply map_ext. intros calendar. unfold searchCalendar.
  by destruct (Client.listEvents client _).
Qed.

Lemma isError_respond (args : Args.t) (cals : list CalendarListItem.t)
    (results : list SearchResult.t) :
  ToolResult.isError (respond args cals results) = None.
Proof. done. Qed.


(** ** Rendering the summary *)

Lemma texts_respond (args : Args.t) (cals : list CalendarListItem.t)
    (results : list SearchResult.t) :
  texts (respond args cals results)
  = [ join (String "010" "") (renderLines args cals results) ].
Proof. done. Qed.

Lemma join_includes (sep name : string) (names : list string) :
  name ∈ names → includes (join sep names) name = true.
Proof.
  intros Hin. apply includes_spec. unfold join.
  induction names as [|x names IH]; [by apply elem_of_nil in Hin|].
  apply elem_of_cons in Hin as [->|Hin].
  - destruct names as [|y names]; cbn [String.concat].
    + exists "", "". by rewrite append_empty_r.
    + by exists "", (sep +:+ String.concat sep (y :: names)).
  - destruct (IH Hin) as (pre & post & Heq).
    destruct names as [|y names]; [by apply elem_of_nil in Hin|].
    cbn [String.concat]. cbn [String.concat] in Heq. rewrite Heq.
    exists (x +:+ sep +:+ pre), post. by rewrite !append_assoc.
Qed.

Lemma failedLine_includes (results : list SearchResult.t) (name : string) :
  name ∈ failedCalendars results → includes (failedLine results) name = true.
Proof.
  intros (pre & post & Heq)%(join_includes ", ")%includes_spec.
  apply includes_spec. unfold failedLine. rewrite Heq.
  exists ("(Failed to search: " +:+ pre), (post +:+ ")").
  by rewrite !append_assoc.
Qed.

Lemma elem_of_failedCalendars (client : Client.t) (args : Args.t)
    (cals : list CalendarListItem.t) (calendar : CalendarListItem.t) (message : string) :
  calendar ∈ cals →
  Client.listEvents client (listEventsParams args calendar) = Threw message →
  message ≠ "" →
  CalendarListItem.summary calendar ∈ failedCalendars (searchAll client args cals).
Proof.
  intros Hin Hthrow Hne. unfold failedCalendars.
  apply list_elem_of_fmap. exists (searchCalendar client args calendar).
  assert (searchCalendar client args calendar
          = SearchResult.mk calendar [] None (Some message)) as Heq.
  { unfold searchCalendar. by rewrite Hthrow. }
  split; [by rewrite Heq|].
  apply list_elem_of_In, List.filter_In. split.
  - apply in_map. by apply list_elem_of_In.
  - rewrite Heq. cbn. by apply negb_true_iff, String.eqb_neq.
Qed.

(** C3, as amended: when the selector is ["all"] and more than one
    calendar was searched without a recorded error, the rendered summary
    has the line naming the failed calendars, in which every calendar
    whose fetch threw an error with a non-empty message appears by display
    name; the result of the call is not an error. *)
Theorem C3_failed_calendars_listed (args : Args.t) (context : Context.t)
    (calls : list Call) (cals : list CalendarListItem.t)
    (results : list SearchResult.t) :
  gather args context = (calls, inr (cals, results)) →
  Args.calendarId args = CalId "all" →
  (1 < length (searchedCalendars results))%nat →
  failedCalendars results ≠ [] →
  ToolResult.isError (handler args context).2 = None
  ∧ texts (handler args context).2
    = [ join (String "010" "") (renderLines args cals results) ]
  ∧ failedLine results ∈ renderLines args cals results
  ∧ (∀ calendar message,
       calendar ∈ cals →
       Client.listEvents (clientOf context) (listEventsParams args calendar)
       = Threw message →
       message ≠ "" →
       CalendarListItem.summary calendar ∈ failedCalendars results
       ∧ includes (failedLine results) (CalendarListItem.summary calendar) = true).
Proof.
  intros Hg Hall Hsearched Hfailed.
  rewrite (handler_searched _ _ _ _ _ Hg). cbn [snd].
  split; [done|]. split; [done|]. split.
  - unfold renderLines, headerLines. rewrite Hall. cbn [isAll String.eqb Ascii.eqb Bool.eqb].
    apply Nat.ltb_lt in Hsearched. rewrite Hsearched. cbn [andb].
    destruct (failedCalendars results) as [|name names] eqn:Hf; [done|].
    cbn [length Nat.ltb Nat.leb].
    rewrite !elem_of_app. left. right. left. by apply list_elem_of_singleton.
  - intros calendar message Hin Hthrow Hne.
    apply gather_searched in Hg as (_ & _ & _ & _ & ->).
    assert (CalendarListItem.summary calendar
            ∈ failedCalendars (searchAll (clientOf context) args cals)) as Hname
      by by eapply elem_of_failedCalendars.
    split; [done|]. by apply failedLine_includes.
Qed.

(** ** Projection *)

Lemma lookup_assign (result : gmap string JSValue) (field k : string) (v : JSValue) :
  assign result field v !! k
  = if decide (k = field ∧ k ≠ "__proto__") then Some v else result !! k.
Proof using Type.
  unfold assign. destruct (String.eqb_spec field "__proto__") as [->|Hne].
  - rewrite decide_False; [done|]. by intros [-> ?].
  - destruct (decide (k = field)) as [->|Hk].
    + rewrite decide_True by done. by rewrite lookup_insert_eq.
    + rewrite decide_False by by intros [? _]. by rewrite lookup_insert_ne.
Qed.

Lemma pickFields_lookup_acc (event : EventWithCalendar.t) (fields : list string)
    (acc : gmap string JSValue) (k : string) :
  foldl (fun result field =>
           match getField event field with
           | Some v => assign result field v
           | None => result
           end) acc fields !! k
  = if decide (k ∈ fields ∧ k ≠ "__proto__")
    then match getField event k with Some v => Some v | None => acc !! k end
    else acc !! k.
Proof using Type.
  clear Date_getTime toLowerCase Function_toString GoogleCalendarClient.
  revert acc. induction fields as [|f fields IH]; intros acc; cbn [foldl].
  - rewrite decide_False; [done|]. intros [?%elem_of_nil _]. done.
  - rewrite IH.
    assert ((match getField event f with
             | Some v => assign acc f v
             | None => acc
             end) !! k
            = if decide (k = f ∧ k ≠ "__proto__")
              then match getField event k with Some v => Some v | None => acc !! k end
              else acc !! k) as ->.
    { destruct (getField event f) as [v|] eqn:Hv.
      - rewrite lookup_assign.
        destruct (decide (k = f ∧ k ≠ "__proto__")) as [[-> _]|_]; [|done].
        by rewrite Hv.
      - destruct (decide (k = f ∧ k ≠ "__proto__")) as [[-> _]|_]; [|done].
        by rewrite Hv. }
    pose proof (elem_of_cons fields k f) as Hcons.
    repeat case_decide; destruct (getField event k); try done; tauto.
Qed.

(** A projected record has exactly the selected properties the event has,
    [__proto__] apart. *)
Lemma pickFields_lookup (event : EventWithCalendar.t) (fields : list string) (k : string) :
  pickFields event fields !! k
  = if decide (k ∈ fields ∧ k ≠ "__proto__") then getField event k else None.
Proof using Type.
  unfold pickFields. rewrite pickFields_lookup_acc, lookup_empty.
  destruct (decide (k ∈ fields ∧ k ≠ "__proto__")); [|done].
  by destruct (getField event k).
Qed.

Lemma gather_withFields (fields : option (list string)) (args : Args.t)
    (context : Context.t) :
  gather (withFields fields args) context = gather args context.
Proof. done. Qed.

(** C10: an empty [fields] list selects the default fields, exactly as
    when [fields] is omitted, and no record of the structured projection
    is empty: each keeps at least its calendar id. *)
Theorem C10_empty_fields_use_default (args : Args.t) (context : Context.t) :
  selectedFields (withFields (Some []) args) = DEFAULT_FIELDS
  ∧ handler (withFields (Some []) args) context = handler (withFields None args) context
  ∧ ∀ payload item,
      ToolResult.structuredContent (handler (withFields (Some []) args) context).2
      = Some payload →
      item ∈ StructuredContent.items payload →
      item ≠ ∅
      ∧ ∃ event,
          item = pickFields event DEFAULT_FIELDS
          ∧ item !! "calendarId" = Some (VString (EventWithCalendar.calendarId event)).
Proof.
  split; [done|]. split.
  { unfold handler. rewrite !gather_withFields.
    by destruct (gather args context) as [calls [early|[cals results]]]. }
  intros payload item. unfold handler. rewrite gather_withFields.
  destruct (gather args context) as [calls [early|[cals results]]] eqn:Hg.
  - unfold gather in Hg.
    destruct (negb (truthy (Context.providerToken context))); [by injection Hg as _ <-|].
    destruct (resolveCalendars (clientOf context) args) as [calls0 [cals0|message]].
    + destruct (paginationRejected args cals0); [by injection Hg as _ <-|done].
    + by injection Hg as _ <-.
  - cbn. intros [= <-] Hitem. cbn in Hitem.
    apply list_elem_of_fmap in Hitem as (event & Heq & _).
    change (item = pickFields event DEFAULT_FIELDS) in Heq. subst item.
    assert (pickFields event DEFAULT_FIELDS !! "calendarId"
            = Some (VString (EventWithCalendar.calendarId event))) as Hlookup.
    { rewrite pickFields_lookup. rewrite decide_True; [done|].
      unfold DEFAULT_FIELDS. set_solver. }
    split; [|by exists event].
    intros Hempty. by rewrite Hempty, lookup_empty in Hlookup.
Qed.

(** ** The continuation token *)

Lemma headChar_bodyLines (args : Args.t) (results : list SearchResult.t) (line : string) :
  line ∈ bodyLines args results → headChar line ≠ Some "010"%char.
Proof.
  unfold bodyLines. destruct (length (allEvents args results) =? 0)%nat.
  - by intros ->%list_elem_of_singleton.
  - intros [->%list_elem_of_singleton|H]%elem_of_app; [done|].
    apply list_elem_of_In, in_flat_map in H as (event & _ & H).
    apply list_elem_of_In, headChar_eventLines in H as [H|H]; congruence.
Qed.

Lemma headChar_headerLines_newline (args : Args.t) (results : list SearchResult.t)
    (line : string) :
  line ∈ headerLines args results → headChar line ≠ Some "010"%char.
Proof.
  unfold headerLines. destruct (_ && _); [|by intros ?%elem_of_nil].
  rewrite !elem_of_app. intros [H|[H|H]].
  - by apply list_elem_of_singleton in H as ->.
  - destruct (0 <? _)%nat; [|by apply elem_of_nil in H].
    by apply list_elem_of_singleton in H as ->.
  - by apply list_elem_of_singleton in H as ->.
Qed.

(** With a query, no line of the rendering is the line that hands out the
    page token. *)
Lemma pageTokenLine_suppressed (args : Args.t) (cals : list CalendarListItem.t)
    (results : list SearchResult.t) (token : string) :
  truthy (Args.query args) = true →
  pageTokenLine token ∉ renderLines args cals results.
Proof.
  intros Hq. unfold renderLines. rewrite !elem_of_app. intros [H|[H|[H|H]]].
  - by apply headChar_headerLines_newline in H.
  - by apply headChar_bodyLines in H.
  - unfold paginationLines in H. cbv zeta in H. rewrite Hq in H.
    rewrite andb_false_r in H.
    destruct (_ && _); [|by apply elem_of_nil in H].
    by apply list_elem_of_singleton in H.
  - by apply list_elem_of_singleton in H.
Qed.

(** The structured payload carries the token of a single calendar's page
    whenever the service returned one. *)
Lemma structuredToken_respond (args : Args.t) (calendar : CalendarListItem.t)
    (result : SearchResult.t) (results : list SearchResult.t) :
  structuredToken (respond args [calendar] (result :: results))
  = SearchResult.nextPageToken result.
Proof. done. Qed.

(** * Further properties of the handler *)

(** ** Early returns and the calls issued *)

Lemma listEventsOf_app (calls1 calls2 : list Call) :
  listEventsOf (calls1 ++ calls2) = (listEventsOf calls1 ++ listEventsOf calls2)%list.
Proof. apply flat_map_app. Qed.

Lemma listEventsOf_searchCalls (args : Args.t) (cals : list CalendarListItem.t) :
  listEventsOf (searchCalls args cals) = map (listEventsParams args) cals.
Proof.
  unfold listEventsOf, searchCalls.
  induction cals as [|calendar cals IH]; [done|]. cbn. by f_equal.
Qed.

Lemma listEventsOf_resolveCalendars (client : Client.t) (args : Args.t) :
  listEventsOf (resolveCalendars client args).1 = [].
Proof.
  rewrite resolveCalendars_calls. by destruct (isAll (Args.calendarId args)).
Qed.

Lemma elem_of_listEventsOf (calls : list Call) (params : ListEventsParams.t) :
  params ∈ listEventsOf calls ↔ CallListEvents params ∈ calls.
Proof.
  unfold listEventsOf. rewrite !list_elem_of_In, in_flat_map. split.
  - intros ([|p] & Hin & Hp); simpl in Hp; [done|].
    destruct Hp as [->|[]]. done.
  - intros Hin. exists (CallListEvents params). split; [done|]. by left.
Qed.

(** The four ways a run of lines 174-288 can end. *)
Lemma gather_cases (args : Args.t) (context : Context.t) :
  (¬ authenticated context ∧ gather args context = ([], inl authRequired))
  ∨ (authenticated context
     ∧ ∃ message,
         (resolveCalendars (clientOf context) args).2 = Threw message
         ∧ gather args context
           = ((resolveCalendars (clientOf context) args).1, inl (searchFailed message)))
  ∨ (authenticated context
     ∧ ∃ cals,
         (resolveCalendars (clientOf context) args).2 = Returned cals
         ∧ paginationRejected args cals = true
         ∧ gather args context
           = ((resolveCalendars (clientOf context) args).1, inl paginationError))
  ∨ (authenticated context
     ∧ ∃ cals,
         (resolveCalendars (clientOf context) args).2 = Returned cals
         ∧ paginationRejected args cals = false
         ∧ gather args context
           = (((resolveCalendars (clientOf context) args).1 ++ searchCalls args cals)%list,
              inr (cals, searchAll (clientOf context) args cals))).
Proof.
  rewrite authenticated_truthy. unfold gather.
  destruct (truthy (Context.providerToken context)); cbn [negb].
  2: { left. split; [|done]. by intros ?. }
  right.
  destruct (resolveCalendars (clientOf context) args) as [calls0 [cals|message]];
    cbn [fst snd].
  - right. destruct (paginationRejected args cals) eqn:Hrej.
    + left. split; [done|]. by exists cals.
    + right. split; [done|]. by exists cals.
  - left. split; [done|]. by exists message.
Qed.

Lemma handler_early (args : Args.t) (context : Context.t) (calls : list Call)
    (early : ToolResult.t) :
  gather args context = (calls, inl early) → handler args context = (calls, early).
Proof. intros H. unfold handler. by rewrite H. Qed.

(** X1: without a credential (absent, or the empty string) the handler
    answers every request with the authentication error and sends nothing
    to the calendar service. *)
Theorem unauthenticated_sends_nothing (args : Args.t) (context : Context.t) :
  Context.providerToken context = None ∨ Context.providerToken context = Some "" →
  handler args context = ([], authRequired)
  ∧ ToolResult.isError (handler args context).2 = Some true
  ∧ ToolResult.structuredContent (handler args context).2 = None.
Proof.
  intros Htoken.
  assert (handler args context = ([], authRequired)) as ->; [|done].
  apply handler_early. unfold gather.
  by destruct Htoken as [-> | ->].
Qed.

(** X2: when the selector is ["all"] and listing the calendars fails, the
    whole search fails with the listing's message; the listing is the only
    call sent, and no calendar's events are fetched. *)
Theorem listing_failure_fails_search (args : Args.t) (context : Context.t)
    (message : string) :
  authenticated context →
  Args.calendarId args = CalId "all" →
  Client.listCalendars (clientOf context) = Threw message →
  handler args context = ([CallListCalendars], searchFailed message)
  ∧ texts (handler args context).2 = [ "Failed to search events: " +:+ message ]
  ∧ ToolResult.isError (handler args context).2 = Some true.
Proof.
  intros Hauth%authenticated_truthy Hall Hthrow.
  assert (handler args context = ([CallListCalendars], searchFailed message)) as ->;
    [|done].
  apply handler_early. unfold gather. rewrite Hauth. cbn [negb].
  unfold resolveCalendars. rewrite Hall, Hthrow. done.
Qed.

(** X4: a search that goes through sends exactly one [listEvents] call per
    resolved calendar, in the order of the calendars and each for its
    calendar's id, after at most the one [listCalendars] call that resolves
    ["all"]; the results line up with the calendars. *)
Theorem one_fetch_per_calendar (args : Args.t) (context : Context.t)
    (calls : list Call) (cals : list CalendarListItem.t)
    (results : list SearchResult.t) :
  gather args context = (calls, inr (cals, results)) →
  (handler args context).1 = calls
  ∧ calls
    = ((if isAll (Args.calendarId args) then [CallListCalendars] else [])
       ++ searchCalls args cals)%list
  ∧ map ListEventsParams.calendarId (listEventsOf calls) = map CalendarListItem.id cals
  ∧ map SearchResult.calendar results = cals.
Proof.
  intros Hg. rewrite (handler_searched _ _ _ _ _ Hg).
  apply gather_searched in Hg as (_ & _ & _ & -> & ->).
  split; [done|]. split; [by rewrite resolveCalendars_calls|]. split.
  - rewrite listEventsOf_app, listEventsOf_resolveCalendars, listEventsOf_searchCalls.
    cbn [app]. rewrite map_map. by apply map_ext.
  - apply searchAll_calendars.
Qed.

(** X5: an explicit list of ids is searched as given: no listing call,
    one fetch per id in the order of the list (repetitions included), and
    each calendar is named by its id, ["primary"] being named ["Primary"]. *)
Theorem explicit_ids_searched_as_given (args : Args.t) (context : Context.t)
    (ids : list string) :
  authenticated context →
  Args.calendarId args = CalIds ids →
  truthy (Args.pageToken args) = false ∨ length ids = 1 →
  ∃ results,
    gather args context
    = (searchCalls args (map calendarOfId ids), inr (map calendarOfId ids, results))
    ∧ map ListEventsParams.calendarId (listEventsOf (handler args context).1) = ids
    ∧ map (fun r => CalendarListItem.summary (SearchResult.calendar r)) results
      = map (fun id => if String.eqb id "primary" then "Primary" else id) ids.
Proof.
  intros Hauth Hids Hpage.
  exists (searchAll (clientOf context) args (map calendarOfId ids)).
  assert (gather args context
          = (searchCalls args (map calendarOfId ids),
             inr (map calendarOfId ids,
                  searchAll (clientOf context) args (map calendarOfId ids)))) as Hg.
  { apply gather_searched. unfold resolveCalendars. rewrite Hids. cbn [fst snd].
    split; [done|]. split; [done|]. split; [|done].
    unfold paginationRejected. rewrite length_map.
    destruct Hpage as [-> | ->]; [done|]. by rewrite andb_false_r. }
  split; [done|]. rewrite (handler_searched _ _ _ _ _ Hg). cbn [fst]. split.
  - rewrite listEventsOf_searchCalls, !map_map. cbn. apply map_id.
  - rewrite <- (map_map SearchResult.calendar CalendarListItem.summary).
    rewrite searchAll_calendars, map_map. done.
Qed.

(** X6: a request for one calendar id is never rejected for its page
    token: the handler sends the single fetch for that id, with the token
    as given, and the call succeeds whatever the fetch does. *)
Theorem single_calendar_forwards_page_token (args : Args.t) (context : Context.t)
    (id : string) :
  authenticated context →
  Args.calendarId args = CalId id → id ≠ "all" →
  ∃ params,
    (handler args context).1 = [CallListEvents params]
    ∧ ListEventsParams.calendarId params = id
    ∧ ListEventsParams.pageToken params = Args.pageToken args
    ∧ ToolResult.isError (handler args context).2 = None.
Proof.
  intros Hauth Hid Hne.
  assert (gather args context
          = ([CallListEvents (listEventsParams args (calendarOfId id))],
             inr ([calendarOfId id],
                  searchAll (clientOf context) args [calendarOfId id]))) as Hg.
  { apply gather_searched. unfold resolveCalendars. rewrite Hid.
    apply String.eqb_neq in Hne. rewrite Hne. cbn [fst snd].
    split; [done|]. split; [done|]. split; [|done].
    unfold paginationRejected. cbn. by rewrite andb_false_r. }
  exists (listEventsParams args (calendarOfId id)).
  by rewrite (handler_searched _ _ _ _ _ Hg).
Qed.

(** X7: a non-empty page token only ever travels alone: whenever a
    [listEvents] call of the handler carries one, that call is the only
    fetch of the run. *)
Theorem page_token_travels_alone (args : Args.t) (context : Context.t)
    (params : ListEventsParams.t) :
  CallListEvents params ∈ (handler args context).1 →
  truthy (ListEventsParams.pageToken params) = true →
  listEventsOf (handler args context).1 = [params].
Proof.
  intros (calls & cals & results & calendar & Hg & Hin & ->)%handler_listEvents_call
    Htoken.
  rewrite (handler_searched _ _ _ _ _ Hg). cbn [fst].
  apply gather_searched in Hg as (_ & _ & Hrej & -> & _).
  rewrite listEventsOf_app, listEventsOf_resolveCalendars, listEventsOf_searchCalls.
  cbn [app]. unfold paginationRejected in Hrej.
  cbn [listEventsParams ListEventsParams.pageToken] in Htoken.
  rewrite Htoken in Hrej. cbn [andb] in Hrej.
  apply negb_false_iff, Nat.eqb_eq in Hrej.
  destruct cals as [|c [|c' cals]]; try done.
  by apply list_elem_of_singleton in Hin as ->.
Qed.

(** X8: every fetch carries the request's time range, event types,
    expansion flag and page token unchanged; when recurring events are
    expanded it always asks for an ordering, by start time unless the
    request names one, and otherwise it passes the request's ordering on. *)
Theorem fetch_forwards_request (args : Args.t) (context : Context.t)
    (params : ListEventsParams.t) :
  CallListEvents params ∈ (handler args context).1 →
  ListEventsParams.timeMin params = Args.timeMin args
  ∧ ListEventsParams.timeMax params = Args.timeMax args
  ∧ ListEventsParams.eventTypes params = Args.eventTypes args
  ∧ ListEventsParams.singleEvents params = Args.singleEvents args
  ∧ ListEventsParams.pageToken params = Args.pageToken args
  ∧ (Args.singleEvents args = Some true →
     Args.orderBy args = None →
     ListEventsParams.orderBy params = Some startTime)
  ∧ (Args.singleEvents args ≠ Some true ∨ Args.orderBy args ≠ None →
     ListEventsParams.orderBy params = Args.orderBy args).
Proof.
  intros (calls & cals & results & calendar & _ & _ & ->)%handler_listEvents_call.
  cbn. repeat (split; [done|]). split.
  - by intros -> ->.
  - destruct (Args.singleEvents args) as [[]|], (Args.orderBy args) as [o|];
      intros [H|H]; done.
Qed.


(** ** The merged, filtered, ordered and capped events *)

Lemma sortByStart_perm (args : Args.t) (events : list EventWithCalendar.t) :
  sortByStart args events ≡ₚ events.
Proof.
  unfold sortByStart. destruct (sortsByStart args); [|done]. apply sort_perm.
Qed.

Lemma slice0_all {A : Type} (l : list A) (k : Z) :
  (Z.of_nat (length l) ≤ k)%Z → slice0 l k = l.
Proof.
  intros Hk. unfold slice0. destruct (Z.ltb_spec k 0); [lia|].
  apply take_ge. lia.
Qed.

Lemma elem_of_searchAll_events (client : Client.t) (args : Args.t)
    (cals : list CalendarListItem.t) (e : EventWithCalendar.t) :
  e ∈ mergedEvents (searchAll client args cals) →
  ∃ calendar page event,
    calendar ∈ cals
    ∧ Client.listEvents client (listEventsParams args calendar) = Returned page
    ∧ event ∈ ListEventsResult.items page
    ∧ e = withCalendar calendar event.
Proof.
  unfold mergedEvents, searchAll.
  intros (r & Hr & He)%list_elem_of_In%in_flat_map.
  apply in_map_iff in Hr as (calendar & <- & Hcal).
  unfold searchCalendar in He.
  destruct (Client.listEvents client (listEventsParams args calendar))
    as [page|message] eqn:Hfetch; simpl in He; [|done].
  apply in_map_iff in He as (event & <- & Hev).
  exists calendar, page, event. by rewrite !list_elem_of_In.
Qed.

(** X10: the handler invents no event: every event it returns was
    returned by the fetch of one of the resolved calendars, and carries
    that calendar's id and display name. *)
Theorem returned_events_come_from_fetches (args : Args.t) (context : Context.t)
    (calls : list Call) (cals : list CalendarListItem.t)
    (results : list SearchResult.t) (e : EventWithCalendar.t) :
  gather args context = (calls, inr (cals, results)) →
  e ∈ allEvents args results →
  ∃ calendar page,
    calendar ∈ cals
    ∧ Client.listEvents (clientOf context) (listEventsParams args calendar)
      = Returned page
    ∧ EventWithCalendar.event e ∈ ListEventsResult.items page
    ∧ EventWithCalendar.calendarId e = CalendarListItem.id calendar
    ∧ EventWithCalendar.calendarName e = CalendarListItem.summary calendar.
Proof.
  intros (_ & _ & _ & _ & ->)%gather_searched
    He%elem_of_allEvents%filterByQuery_subset.
  apply elem_of_searchAll_events in He as (calendar & page & event & ? & ? & ? & ->).
  by exists calendar, page.
Qed.

(** X11: the cap is the only thing that drops events: when the events
    that pass the filter number at most [maxResults], the handler returns
    all of them, each as often as it was fetched, and announces no more. *)
Theorem nothing_lost_below_cap (args : Args.t) (results : list SearchResult.t) :
  (Z.of_nat (length (filterByQuery args (mergedEvents results))) ≤ requestedMax args)%Z →
  allEvents args results ≡ₚ filterByQuery args (mergedEvents results)
  ∧ hasMore args results = false
  ∧ (truthy (Args.query args) = false →
     allEvents args results ≡ₚ mergedEvents results).
Proof.
  intros Hlen.
  assert (allEvents args results ≡ₚ filterByQuery args (mergedEvents results)) as Hperm.
  { unfold allEvents. rewrite slice0_all; [apply sortByStart_perm|].
    by rewrite orderedEvents_length. }
  split; [done|]. split.
  - unfold hasMore. rewrite orderedEvents_length. apply Z.ltb_ge. lia.
  - intros Hq. rewrite Hperm. unfold filterByQuery. by rewrite Hq.
Qed.

(** X12: when recurring events are not expanded, or the ordering asked
    for is ["updated"], the handler does not reorder: the returned events
    are the first ones of the filtered merge, calendar after calendar. *)
Theorem unsorted_keeps_merge_order (args : Args.t) (results : list SearchResult.t) :
  Args.singleEvents args = Some false ∨ Args.orderBy args = Some updated →
  allEvents args results `prefix_of` filterByQuery args (mergedEvents results).
Proof.
  intros Hcase.
  assert (sortsByStart args = false) as Hsort.
  { unfold sortsByStart. destruct Hcase as [-> | ->]; [done|].
    by destruct (Args.singleEvents args) as [[]|]. }
  unfold allEvents, orderedEvents, sortByStart. rewrite Hsort.
  destruct (slice0_take (filterByQuery args (mergedEvents results)) (requestedMax args))
    as [n ->].
  apply prefix_take.
Qed.

Lemma ascending_tail {A : Type} (key : A -> Z) (x : A) (l : list A) :
  ascending key (x :: l) → ascending key l.
Proof. intros H i a b Ha Hb. by apply (H (S i)). Qed.

Lemma ascending_StronglySorted {A : Type} (key : A -> Z) (l : list A) :
  ascending key l → StronglySorted (fun a b => (key a ≤ key b)%Z) l.
Proof.
  induction l as [|x l IH]; intros Hasc; constructor.
  - eapply IH, ascending_tail, Hasc.
  - apply Forall_forall. intros y [j Hj]%list_elem_of_lookup.
    apply (ascending_le key (x :: l) 0 (S j) x y Hasc); [lia|done|done].
Qed.

Section SortedInput.

Context {A : Type} (cmp : A -> A -> option Z) (key : A -> Z) (ok : A -> Prop).

Hypothesis cmp_key :
  ∀ a b, ok a → ok b → isPositive (cmp a b) = (key b <? key a)%Z.

Lemma sortInsert_least (x : A) (l : list A) :
  ok x → Forall ok l → Forall (fun y => (key x ≤ key y)%Z) l →
  sortInsert cmp x l = x :: l.
Proof.
  intros Hx Hok Hle. destruct l as [|y l]; [done|]. cbn [sortInsert].
  apply Forall_cons in Hok as [Hy _]. apply Forall_cons in Hle as [Hxy _].
  rewrite (cmp_key x y Hx Hy).
  by destruct (Z.ltb_spec (key y) (key x)); [lia|].
Qed.

Lemma sort_sorted_input (l : list A) :
  Forall ok l → StronglySorted (fun a b => (key a ≤ key b)%Z) l → sort cmp l = l.
Proof.
  intros Hok Hs. induction Hs as [|x l Hs IH Hx]; [done|].
  apply Forall_cons in Hok as [Hox Hok].
  cbn [sort foldr]. fold (sort cmp l). rewrite (IH Hok).
  by apply sortInsert_least.
Qed.

End SortedInput.

(** X13: sorting by start time leaves events that already ascend by start
    instant as they are: the returned events are then the first ones of
    the filtered merge. *)
Theorem ascending_input_is_kept (args : Args.t) (results : list SearchResult.t) :
  (∀ e, e ∈ mergedEvents results → resolvableStart e) →
  ascending startInstant (filterByQuery args (mergedEvents results)) →
  allEvents args results `prefix_of` filterByQuery args (mergedEvents results).
Proof.
  intros Hres Hasc.
  assert (Forall resolvableStart (filterByQuery args (mergedEvents results))) as Hok.
  { apply Forall_forall. intros e He%filterByQuery_subset. by apply Hres. }
  unfold allEvents, orderedEvents, sortByStart.
  destruct (sortsByStart args).
  - rewrite (sort_sorted_input compareStart startInstant resolvableStart
               compareStart_key _ Hok (ascending_StronglySorted _ _ Hasc)).
    destruct (slice0_take (filterByQuery args (mergedEvents results))
                (requestedMax args)) as [n ->].
    apply prefix_take.
  - destruct (slice0_take (filterByQuery args (mergedEvents results))
                (requestedMax args)) as [n ->].
    apply prefix_take.
Qed.

(** ** Calendars searched and calendars failed *)

Lemma filter_partition_perm {A : Type} (f : A -> bool) (l : list A) :
  (List.filter (fun x => negb (f x)) l ++ List.filter f l)%list ≡ₚ l.
Proof.
  induction l as [|x l IH]; [done|]. cbn [List.filter].
  destruct (f x); cbn [negb].
  - rewrite <- Permutation_middle. by constructor.
  - cbn [app]. by constructor.
Qed.

(** X14: every resolved calendar is reported exactly once, either among
    the calendars searched or among the failed ones; a calendar whose
    fetch returned is among the searched, and the structured payload lists
    the searched calendars. *)
Theorem calendars_searched_or_failed (args : Args.t) (context : Context.t)
    (calls : list Call) (cals : list CalendarListItem.t)
    (results : list SearchResult.t) :
  gather args context = (calls, inr (cals, results)) →
  (searchedCalendars results ++ failedCalendars results)%list
  ≡ₚ map CalendarListItem.summary cals
  ∧ (∀ calendar page,
       calendar ∈ cals →
       Client.listEvents (clientOf context) (listEventsParams args calendar)
       = Returned page →
       CalendarListItem.summary calendar ∈ searchedCalendars results)
  ∧ ToolResult.structuredContent (handler args context).2
      ≫= (fun payload => Some (StructuredContent.calendarsSearched payload))
    = Some (searchedCalendars results).
Proof.
  intros Hg. rewrite (handler_searched _ _ _ _ _ Hg).
  apply gather_searched in Hg as (_ & _ & _ & _ & ->).
  split; [|split; [|done]].
  - unfold searchedCalendars, failedCalendars. rewrite <- map_app.
    rewrite (filter_partition_perm
               (fun r => truthy (SearchResult.error r))
               (searchAll (clientOf context) args cals)).
    rewrite <- (map_map SearchResult.calendar CalendarListItem.summary).
    by rewrite searchAll_calendars.
  - intros calendar page Hin Hret. unfold searchedCalendars.
    apply list_elem_of_fmap. exists (searchCalendar (clientOf context) args calendar).
    assert (SearchResult.error (searchCalendar (clientOf context) args calendar) = None
            ∧ SearchResult.calendar (searchCalendar (clientOf context) args calendar)
              = calendar) as [Herr Hcal].
    { unfold searchCalendar. by rewrite Hret. }
    split; [by rewrite Hcal|].
    apply list_elem_of_In, List.filter_In. split.
    + apply in_map. by apply list_elem_of_In.
    + by rewrite Herr.
Qed.

(** ** Pagination hints *)

Lemma elem_of_renderLines_newline (args : Args.t) (cals : list CalendarListItem.t)
    (results : list SearchResult.t) (line : string) :
  line ∈ renderLines args cals results → headChar line = Some "010"%char →
  line ∈ paginationLines args cals results ∨ line = noteLine.
Proof.
  unfold renderLines. rewrite !elem_of_app. intros [H|[H|[H|H]]] Hhead.
  - by apply headChar_headerLines_newline in H.
  - by apply headChar_bodyLines in H.
  - by left.
  - right. by apply list_elem_of_singleton in H.
Qed.

Lemma elem_of_renderLines_pagination (args : Args.t) (cals : list CalendarListItem.t)
    (results : list SearchResult.t) (line : string) :
  line ∈ paginationLines args cals results → line ∈ renderLines args cals results.
Proof. intros H. unfold renderLines. rewrite !elem_of_app. auto. Qed.

(** X15: a search of one calendar without a query that returns events
    while the service hands out a page token offers that token: the
    rendering has the line that quotes it and not the advice to raise
    [maxResults], and the structured payload carries the token. *)
Theorem page_token_offered (args : Args.t) (calendar : CalendarListItem.t)
    (result : SearchResult.t) (token : string) :
  truthy (Args.query args) = false →
  SearchResult.nextPageToken result = Some token → token ≠ "" →
  allEvents args [result] ≠ [] →
  pageTokenLine token ∈ renderLines args [calendar] [result]
  ∧ (increaseLine ∉ renderLines args [calendar] [result])
  ∧ structuredToken (respond args [calendar] [result]) = Some token.
Proof.
  intros Hq Htoken Hne Hevents.
  assert (paginationLines args [calendar] [result] = [pageTokenLine token]) as Hpag.
  { unfold paginationLines, singleCalendarResult. cbn [length Nat.eqb head mbind option_bind].
    rewrite Htoken, Hq. cbn [truthy jsOrDefault].
    apply String.eqb_neq in Hne. rewrite Hne.
    destruct (allEvents args [result]); [done|]. done. }
  split; [|split].
  - apply elem_of_renderLines_pagination. rewrite Hpag. by apply list_elem_of_singleton.
  - intros [H|H]%elem_of_renderLines_newline; [|done|done].
    rewrite Hpag in H. by apply list_elem_of_singleton in H.
  - cbn. by rewrite Htoken.
Qed.

(** X16: a search of any number of calendars other than one never hands
    out a page token, neither in the text nor in the structured payload;
    for a [maxResults] the schema admits it advises to raise [maxResults]
    exactly when events were cut off. *)
Theorem many_calendars_offer_no_token (args : Args.t) (cals : list CalendarListItem.t)
    (results : list SearchResult.t) :
  validMaxResults args →
  length cals ≠ 1 →
  structuredToken (respond args cals results) = None
  ∧ (∀ token, pageTokenLine token ∉ renderLines args cals results)
  ∧ (increaseLine ∈ renderLines args cals results ↔ hasMore args results = true).
Proof.
  intros Hvalid%requestedMax_valid Hlen.
  assert (singleCalendarResult cals results = None) as Hsingle.
  { unfold singleCalendarResult. apply Nat.eqb_neq in Hlen. by rewrite Hlen. }
  assert (paginationLines args cals results
          = if (0 <? length (allEvents args results))%nat && hasMore args results
            then [increaseLine] else []) as Hpag.
  { unfold paginationLines. rewrite Hsingle. cbn [mbind option_bind truthy].
    by rewrite andb_false_r. }
  assert (hasMore args results = true →
          (0 <? length (allEvents args results))%nat = true) as Hshown.
  { intros Hmore. apply Nat.ltb_lt.
    assert (length (allEvents args results) ≠ 0); [|lia].
    apply slice0_nonempty; [lia|]. unfold hasMore in Hmore. by apply Z.ltb_lt in Hmore. }
  split; [|split].
  - unfold structuredToken. cbn. by rewrite Hsingle.
  - intros token [H|H]%elem_of_renderLines_newline; [|done|done].
    rewrite Hpag in H. destruct (_ && _); [|by apply elem_of_nil in H].
    by apply list_elem_of_singleton in H.
  - split.
    + intros [H|H]%elem_of_renderLines_newline; [|done|done].
      rewrite Hpag in H. destruct (hasMore args results); [done|].
      rewrite andb_false_r in H. by apply elem_of_nil in H.
    + intros Hmore. apply elem_of_renderLines_pagination.
      rewrite Hpag, Hmore, (Hshown Hmore). by apply list_elem_of_singleton.
Qed.

(** ** The rendered lines *)

Lemma lines_without_events (args : Args.t) (cals : list CalendarListItem.t)
    (results : list SearchResult.t) :
  allEvents args results = [] →
  bodyLines args results = [ "No events found matching the criteria." ]
  ∧ paginationLines args cals results = []
  ∧ filteredItems args results = [].
Proof.
  intros Hnone. unfold bodyLines, paginationLines, filteredItems.
  by rewrite Hnone.
Qed.

(** X17: when no event is left, the rendering says so and gives no
    pagination hint, even if the service handed out a page token: after the
    header come the no-events line and the closing note only, and the
    structured payload has no items. *)
Theorem no_events_no_hint (args : Args.t) (cals : list CalendarListItem.t)
    (results : list SearchResult.t) :
  allEvents args results = [] →
  renderLines args cals results
  = (headerLines args results
     ++ [ "No events found matching the criteria."; noteLine ])%list
  ∧ filteredItems args results = [].
Proof.
  intros (Hbody & Hpag & Hitems)%(lines_without_events args cals results).
  unfold renderLines. by rewrite Hbody, Hpag, Hitems.
Qed.

Lemma isEntryLine_formatEventLine (event : EventWithCalendar.t) :
  isEntryLine (formatEventLine event) = true.
Proof. unfold isEntryLine. by rewrite headChar_formatEventLine. Qed.

Lemma entryLines_eventLines (event : EventWithCalendar.t) :
  List.filter isEntryLine (eventLines event) = [formatEventLine event].
Proof.
  unfold eventLines. cbn [app List.filter].
  rewrite isEntryLine_formatEventLine. f_equal.
  rewrite !List.filter_app.
  destruct (truthy (CalendarEvent.location _)); cbn [List.filter app];
    destruct (CalendarEvent.attendees _) as [attendees|];
    try destruct (0 <? length attendees)%nat; cbn [List.filter app];
    by destruct (truthy (CalendarEvent.hangoutLink _)).
Qed.

Lemma entryLines_headerLines (args : Args.t) (results : list SearchResult.t) :
  List.filter isEntryLine (headerLines args results) = [].
Proof.
  unfold headerLines. destruct (_ && _); [|done].
  by destruct (0 <? length (failedCalendars results))%nat.
Qed.

Lemma entryLines_paginationLines (args : Args.t) (cals : list CalendarListItem.t)
    (results : list SearchResult.t) :
  List.filter isEntryLine (paginationLines args cals results) = [].
Proof.
  unfold paginationLines. cbv zeta.
  destruct (_ && _ && _); [done|]. by destruct (_ && _).
Qed.

Lemma entryLines_renderLines (args : Args.t) (cals : list CalendarListItem.t)
    (results : list SearchResult.t) :
  List.filter isEntryLine (renderLines args cals results)
  = map formatEventLine (allEvents args results).
Proof.
  unfold renderLines. rewrite !List.filter_app.
  rewrite entryLines_headerLines, entryLines_paginationLines.
  cbn [app]. rewrite app_nil_r. unfold bodyLines.
  destruct (allEvents args results) as [|e events]; [done|].
  cbn [length Nat.eqb app List.filter]. 
  change (isEntryLine (foundLine (S (length events)) (hasMore args results))) with false.
  cbv iota. generalize (e :: events). intros l.
  induction l as [|x l IH]; [done|].
  cbn [flat_map map]. by rewrite List.filter_app, entryLines_eventLines, IH.
Qed.

(** X18: the rendering has exactly one entry line (a line that starts
    with a dash) per returned event, in the order of the events. *)
Theorem one_entry_line_per_event (args : Args.t) (cals : list CalendarListItem.t)
    (results : list SearchResult.t) :
  List.filter isEntryLine (renderLines args cals results)
  = map formatEventLine (allEvents args results).
Proof. apply entryLines_renderLines. Qed.

(** X19: a search over no calendar at all (an empty list of ids, or
    ["all"] without a readable calendar) fetches nothing and succeeds with
    the no-events text and an empty payload. *)
Theorem no_calendars_no_events (args : Args.t) (context : Context.t)
    (calls : list Call) (results : list SearchResult.t) :
  gather args context = (calls, inr ([], results)) →
  listEventsOf (handler args context).1 = []
  ∧ texts (handler args context).2
    = [ join (String "010" "") [ "No events found matching the criteria."; noteLine ] ]
  ∧ ToolResult.structuredContent (handler args context).2
    = Some (StructuredContent.mk [] [] None)
  ∧ ToolResult.isError (handler args context).2 = None.
Proof.
  intros Hg. rewrite (handler_searched _ _ _ _ _ Hg).
  apply gather_searched in Hg as (_ & _ & _ & -> & ->). cbn [fst snd searchAll map].
  assert (allEvents args [] = []) as Hnone.
  { unfold allEvents, orderedEvents, sortByStart, filterByQuery, mergedEvents.
    cbn [flat_map List.filter]. 
    destruct (truthy (Args.query args)), (sortsByStart args); cbn [sort foldr];
      by destruct (slice0_take (@nil EventWithCalendar.t) (requestedMax args)) as [n ->];
         rewrite take_nil. }
  destruct (lines_without_events args [] [] Hnone) as (Hbody & Hpag & Hitems).
  split; [|split; [|split; [|done]]].
  - rewrite listEventsOf_app, listEventsOf_resolveCalendars. done.
  - rewrite texts_respond. f_equal. unfold renderLines. rewrite Hbody, Hpag.
    unfold headerLines. cbn [searchedCalendars List.filter map length Nat.ltb Nat.leb].
    by rewrite andb_false_r.
  - unfold respond. cbn [ToolResult.structuredContent]. by rewrite Hitems.
Qed.

(** ** Projection onto the selected fields *)

(** X20: a projected record depends on the set of selected names only:
    their order and repetitions make no difference. *)
Theorem projection_ignores_order_and_repeats (event : EventWithCalendar.t)
    (fields1 fields2 : list string) :
  (∀ k, k ∈ fields1 ↔ k ∈ fields2) →
  pickFields event fields1 = pickFields event fields2.
Proof using Type.
  clear Date_getTime toLowerCase Function_toString GoogleCalendarClient.
  intros Hsame. apply map_eq. intros k. rewrite !pickFields_lookup.
  specialize (Hsame k).
  destruct (decide (k ∈ fields1 ∧ k ≠ "__proto__")) as [H1|H1],
    (decide (k ∈ fields2 ∧ k ≠ "__proto__")) as [H2|H2]; try done; tauto.
Qed.

(** ** The text filter *)


(** ** How many events are returned *)

Lemma slice0_submseteq {A : Type} (l : list A) (k : Z) : slice0 l k ⊆+ l.
Proof.
  destruct (slice0_take l k) as [n ->].
  apply sublist_submseteq, sublist_take.
Qed.

Lemma filterByQuery_submseteq (args : Args.t) (events : list EventWithCalendar.t) :
  filterByQuery args events ⊆+ events.
Proof.
  unfold filterByQuery. destruct (truthy (Args.query args)); [|done].
  apply sublist_submseteq, filter_sublist.
Qed.

(** X26: for a [maxResults] the schema admits, the handler returns as many
    events as the cap allows, the smaller of [maxResults] and the number of
    events that pass the filter, and returns no event more often than it
    was fetched. *)
Theorem returns_as_many_as_allowed (args : Args.t) (results : list SearchResult.t) :
  validMaxResults args →
  Z.of_nat (length (allEvents args results))
  = Z.min (requestedMax args)
      (Z.of_nat (length (filterByQuery args (mergedEvents results))))
  ∧ allEvents args results ⊆+ mergedEvents results.
Proof.
  intros Hvalid%requestedMax_valid. split.
  - unfold allEvents, slice0. destruct (Z.ltb_spec (requestedMax args) 0); [lia|].
    rewrite length_take, orderedEvents_length. lia.
  - unfold allEvents, orderedEvents.
    etransitivity; [apply slice0_submseteq|].
    rewrite sortByStart_perm. apply filterByQuery_submseteq.
Qed.

(** * The response and the returned events *)

(** What a search that goes through returns: no error flag, the joined
    lines as text, and the payload with the projected events. *)
Lemma handler_returns (args : Args.t) (context : Context.t) (calls : list Call)
    (cals : list CalendarListItem.t) (results : list SearchResult.t) :
  gather args context = (calls, inr (cals, results)) →
  ToolResult.isError (handler args context).2 = None
  ∧ texts (handler args context).2
    = [ join (String "010" "") (renderLines args cals results) ]
  ∧ ToolResult.structuredContent (handler args context).2
    = Some (StructuredContent.mk
              (map (fun e => pickFields e (selectedFields args)) (allEvents args results))
              (searchedCalendars results)
              (singleCalendarResult cals results ≫= SearchResult.nextPageToken)).
Proof. intros Hg. by rewrite (handler_searched _ _ _ _ _ Hg). Qed.

(** C4: with a non-empty query, the events the handler returns, those its
    payload projects and its text lists, each have a non-empty title,
    description, location, attendee email or attendee display name that
    contains the query as a contiguous substring, letter case apart (the
    lower-case form of the field has the lower-case form of the query in
    it); an event without such a field is not returned, and queries with
    the same lower-case form match the same events. *)
Theorem C4_returned_events_match_query (args : Args.t) (context : Context.t)
    (calls : list Call) (cals : list CalendarListItem.t)
    (results : list SearchResult.t) (q : string) :
  gather args context = (calls, inr (cals, results)) →
  Args.query args = Some q → q ≠ "" →
  (StructuredContent.items <$> ToolResult.structuredContent (handler args context).2)
  = Some (map (fun e => pickFields e (selectedFields args)) (allEvents args results))
  ∧ texts (handler args context).2
    = [ join (String "010" "") (renderLines args cals results) ]
  ∧ List.filter isEntryLine (renderLines args cals results)
    = map formatEventLine (allEvents args results)
  ∧ (∀ e, e ∈ allEvents args results →
       ∃ f, candidateField (EventWithCalendar.event e) f
            ∧ f ≠ "" ∧ containsIgnoreCase f q)
  ∧ (∀ q' event, toLowerCase q' = toLowerCase q →
       matchesQuerySubstring event q' = matchesQuerySubstring event q).
Proof.
  intros Hg Hq Hne.
  destruct (handler_returns _ _ _ _ _ Hg) as (_ & Htext & ->).
  split; [done|]. split; [done|]. split; [apply entryLines_renderLines|]. split.
  - intros e He%elem_of_allEvents.
    apply (elem_of_filterByQuery args _ q) in He as [_ He]; [|done..].
    by apply matchesQuerySubstring_spec in He.
  - intros q' event Hsame. unfold matchesQuerySubstring. by rewrite Hsame.
Qed.

(** C5: for a [maxResults] of [n], the handler returns at most [n] events,
    in its payload and in its text, and its text has the count line with
    [(more available)] exactly when the merged events that pass the filter
    outnumber [n]. *)
Theorem C5_cap_and_more_available (args : Args.t) (context : Context.t)
    (calls : list Call) (cals : list CalendarListItem.t)
    (results : list SearchResult.t) (n : Z) :
  Args.maxResults args = Some n → (1 ≤ n ≤ 250)%Z →
  gather args context = (calls, inr (cals, results)) →
  ∃ payload lines,
    ToolResult.structuredContent (handler args context).2 = Some payload
    ∧ texts (handler args context).2 = [ join (String "010" "") lines ]
    ∧ (Z.of_nat (length (StructuredContent.items payload)) ≤ n)%Z
    ∧ (Z.of_nat (length (List.filter isEntryLine lines)) ≤ n)%Z
    ∧ length (StructuredContent.items payload)
      = Nat.min (Z.to_nat n) (length (filterByQuery args (mergedEvents results)))
    ∧ (foundLine (length (StructuredContent.items payload)) true ∈ lines
       ↔ (n < Z.of_nat (length (filterByQuery args (mergedEvents results))))%Z)
    ∧ (foundLine (length (StructuredContent.items payload)) false ∈ lines
       ↔ (0 < Z.of_nat (length (filterByQuery args (mergedEvents results))) ≤ n)%Z)
    ∧ ((n < Z.of_nat (length (filterByQuery args (mergedEvents results))))%Z →
       ∀ text, text ∈ texts (handler args context).2 →
         includes text (foundLine (Z.to_nat n) true) = true).
Proof.
  intros Hn Hrange Hg.
  destruct (handler_returns _ _ _ _ _ Hg) as (_ & Htext & Hpayload).
  eexists _, (renderLines args cals results). split; [exact Hpayload|].
  split; [exact Htext|]. cbn [StructuredContent.items]. rewrite length_map.
  assert (requestedMax args = n) as Hmax by (unfold requestedMax; by rewrite Hn).
  assert (length (allEvents args results)
          = Nat.min (Z.to_nat n) (length (filterByQuery args (mergedEvents results))))
    as Hlen.
  { unfold allEvents, slice0. rewrite Hmax.
    destruct (Z.ltb_spec n 0); [lia|].
    by rewrite length_take, orderedEvents_length. }
  assert (hasMore args results = true
          ↔ (n < Z.of_nat (length (filterByQuery args (mergedEvents results))))%Z) as Hmore.
  { unfold hasMore. by rewrite orderedEvents_length, Hmax, Z.ltb_lt. }
  assert (foundLine (length (allEvents args results)) true ∈ renderLines args cals results
          ↔ (n < Z.of_nat (length (filterByQuery args (mergedEvents results))))%Z) as Hline.
  { rewrite <- Hmore. split.
    - intros Hin. apply renderLines_found in Hin as [_ Heq]; [|done].
      by apply foundLine_more_inj in Heq.
    - intros Hm. unfold renderLines, bodyLines.
      assert (length (allEvents args results) ≠ 0) as Hnz.
      { apply Hmore in Hm. lia. }
      apply Nat.eqb_neq in Hnz. rewrite Hnz, Hm.
      rewrite !elem_of_app. right; left. left. by apply list_elem_of_singleton. }
  split; [lia|]. split; [rewrite entryLines_renderLines, length_map; lia|].
  split; [done|]. split; [done|]. split.
  - split.
    + intros Hin. apply renderLines_found in Hin as [Hnz Heq]; [|done].
      apply foundLine_more_inj in Heq.
      assert (¬ (n < Z.of_nat (length (filterByQuery args (mergedEvents results))))%Z).
      { intros Hm%Hmore. congruence. }
      lia.
    + intros [Hpos Hle]. unfold renderLines, bodyLines.
      assert (length (allEvents args results) ≠ 0) as Hnz by lia.
      assert (hasMore args results = false) as Hm.
      { apply not_true_is_false. intros Hm%Hmore. lia. }
      apply Nat.eqb_neq in Hnz. rewrite Hnz, Hm.
      rewrite !elem_of_app. right; left. left. by apply list_elem_of_singleton.
  - intros Hm text Hin. rewrite Htext in Hin.
    apply list_elem_of_singleton in Hin as ->.
    apply join_includes. apply Hline in Hm as Hfound.
    replace (Z.to_nat n) with (length (allEvents args results)) by lia. done.
Qed.

(** C7, as amended: with [n] the [maxResults] of the request (50 when it
    gives none), every [listEvents] call the handler issues carries the
    same [maxResults], [min(max(n * m, f), 250)], with [m = 10] and
    [f = 100] when the query is non-empty and [m = 2] and [f = 10] when it
    is absent or the empty string; it never exceeds 250, whatever the
    number of calendars searched. *)
Theorem C7_fetch_cap (args : Args.t) (context : Context.t)
    (params : ListEventsParams.t) (n : Z) :
  default 50%Z (Args.maxResults args) = n →
  CallListEvents params ∈ (handler args context).1 →
  (∀ q, Args.query args = Some q → q ≠ "" →
     ListEventsParams.maxResults params = Z.min (Z.max (n * 10) 100) 250)
  ∧ (Args.query args = None ∨ Args.query args = Some "" →
     ListEventsParams.maxResults params = Z.min (Z.max (n * 2) 10) 250)
  ∧ (ListEventsParams.maxResults params ≤ 250)%Z.
Proof.
  intros Hn (calls & cals & results & calendar & _ & _ & ->)%handler_listEvents_call.
  cbn [listEventsParams ListEventsParams.maxResults].
  rewrite fetchMaxResults_eq.
  unfold fetchMultiplier, minFetchAmount, hasLocalQuery, requestedMax. rewrite Hn.
  split; [|split].
  - intros q -> Hq. cbn [truthy].
    apply String.eqb_neq in Hq. by rewrite Hq.
  - by intros [-> | ->].
  - lia.
Qed.

(** C8, as amended: when recurring events are expanded, the ordering is by
    start time (asked for or by default) and every start string a fetched
    event carries is a valid date, the events the handler returns, those
    its payload projects and its text lists, ascend by start instant, an
    event without a start string counting as time zero: it comes after the
    events that start before time zero and before those that start after
    it; events with the same start instant keep the order in which they
    were merged. *)
Theorem C8_sorted_by_start (args : Args.t) (context : Context.t)
    (calls : list Call) (cals : list CalendarListItem.t)
    (results : list SearchResult.t) :
  gather args context = (calls, inr (cals, results)) →
  Args.singleEvents args ≠ Some false →
  Args.orderBy args = Some startTime ∨ Args.orderBy args = None →
  (∀ e, e ∈ mergedEvents results → resolvableStart e) →
  (StructuredContent.items <$> ToolResult.structuredContent (handler args context).2)
  = Some (map (fun e => pickFields e (selectedFields args)) (allEvents args results))
  ∧ texts (handler args context).2
    = [ join (String "010" "") (renderLines args cals results) ]
  ∧ List.filter isEntryLine (renderLines args cals results)
    = map formatEventLine (allEvents args results)
  ∧ ascending startInstant (allEvents args results)
  ∧ (∀ e, truthy (startString (EventWithCalendar.event e)) = false →
       getEventStartTime (EventWithCalendar.event e) = Some 0%Z)
  ∧ (∀ i j a b,
       allEvents args results !! i = Some a →
       allEvents args results !! j = Some b →
       truthy (startString (EventWithCalendar.event a)) = false →
       (0 < startInstant b)%Z →
       (i < j)%nat)
  ∧ (∀ i j a b,
       allEvents args results !! i = Some a →
       allEvents args results !! j = Some b →
       (startInstant a < 0)%Z →
       truthy (startString (EventWithCalendar.event b)) = false →
       (i < j)%nat)
  ∧ (∀ t,
       List.filter (fun e => (startInstant e =? t)%Z) (allEvents args results)
       `prefix_of`
       List.filter (fun e => (startInstant e =? t)%Z)
         (filterByQuery args (mergedEvents results))).
Proof.
  intros Hg Hsingle Horder Hres.
  destruct (handler_returns _ _ _ _ _ Hg) as (_ & Htext & ->).
  split; [done|]. split; [done|]. split; [apply entryLines_renderLines|].
  assert (sortsByStart args = true) as Hsorts by by apply sortsByStart_spec.
  assert (Forall resolvableStart (filterByQuery args (mergedEvents results))) as Hok.
  { apply Forall_forall. intros e He%filterByQuery_subset. by apply Hres. }
  unfold allEvents, orderedEvents, sortByStart. rewrite Hsorts.
  destruct (slice0_take
              (sort compareStart (filterByQuery args (mergedEvents results)))
              (requestedMax args)) as [n ->].
  assert (ascending startInstant
            (take n (sort compareStart (filterByQuery args (mergedEvents results)))))
    as Hasc.
  { apply ascending_take, StronglySorted_ascending.
    by apply (sort_sorted compareStart startInstant resolvableStart compareStart_key). }
  split; [done|]. split; [|split; [|split]].
  - intros e He. by apply startInstant_no_start.
  - intros i j a b Ha Hb Hno%startInstant_no_start Hpos.
    destruct (Nat.lt_ge_cases i j) as [Hlt|Hge]; [done|].
    pose proof (ascending_le _ _ _ _ _ _ Hasc Hge Hb Ha). lia.
  - intros i j a b Ha Hb Hneg Hno%startInstant_no_start.
    destruct (Nat.lt_ge_cases i j) as [Hlt|Hge]; [done|].
    pose proof (ascending_le _ _ _ _ _ _ Hasc Hge Hb Ha). lia.
  - intros t.
    rewrite <- (sort_stable compareStart startInstant resolvableStart
                  compareStart_key t _ Hok).
    apply filter_take_prefix.
Qed.

(** * Further properties of the response *)

(** X3: a result of the handler is either an error without structured
    payload, decided before any calendar's events are fetched, or the
    success of a search that went through: no error flag, the payload of
    that search, and exactly one [listEvents] call for each of its
    calendars, for their ids in their order. *)
Theorem error_results_have_no_payload (args : Args.t) (context : Context.t) :
  (ToolResult.isError (handler args context).2 = Some true
   ∧ ToolResult.structuredContent (handler args context).2 = None
   ∧ listEventsOf (handler args context).1 = [])
  ∨ (ToolResult.isError (handler args context).2 = None
     ∧ ∃ calls cals results,
         gather args context = (calls, inr (cals, results))
         ∧ (handler args context).1 = calls
         ∧ ToolResult.structuredContent (handler args context).2
           = Some (StructuredContent.mk
                     (filteredItems args results)
                     (searchedCalendars results)
                     (singleCalendarResult cals results ≫= SearchResult.nextPageToken))
         ∧ listEventsOf calls = map (listEventsParams args) cals
         ∧ map ListEventsParams.calendarId (listEventsOf calls)
           = map CalendarListItem.id cals).
Proof.
  destruct (gather_cases args context)
    as [[_ Hg]|[(_ & message & _ & Hg)|[(_ & cals & _ & _ & Hg)|(_ & cals & _ & _ & Hg)]]].
  - left. by rewrite (handler_early _ _ _ _ Hg).
  - left. rewrite (handler_early _ _ _ _ Hg). cbn [fst snd].
    split; [done|]. split; [done|]. apply listEventsOf_resolveCalendars.
  - left. rewrite (handler_early _ _ _ _ Hg). cbn [fst snd].
    split; [done|]. split; [done|]. apply listEventsOf_resolveCalendars.
  - right. rewrite (handler_searched _ _ _ _ _ Hg). cbn [fst snd].
    split; [done|]. eexists _, cals, _. split; [exact Hg|].
    split; [done|]. split; [done|].
    rewrite listEventsOf_app, listEventsOf_resolveCalendars, listEventsOf_searchCalls.
    cbn [app]. split; [done|]. rewrite map_map. by apply map_ext.
Qed.

(** X21: a projected record holds a property exactly when its name was
    selected, is not [__proto__], and is a property of the event, own or
    inherited, and then with the event's value; a name that was not
    selected never appears, and selecting more names only adds
    properties. *)
Theorem projection_holds_selected_properties (event : EventWithCalendar.t)
    (fields : list string) :
  (∀ k v, pickFields event fields !! k = Some v
          ↔ k ∈ fields ∧ k ≠ "__proto__" ∧ getField event k = Some v)
  ∧ (∀ k, k ∉ fields → pickFields event fields !! k = None)
  ∧ (∀ fields', (∀ k, k ∈ fields → k ∈ fields') →
       pickFields event fields ⊆ pickFields event fields').
Proof using Type.
  split; [|split].
  - intros k v. rewrite pickFields_lookup.
    destruct (decide (k ∈ fields ∧ k ≠ "__proto__")) as [[? ?]|Hnot].
    + split; [done|]. by intros (_ & _ & ?).
    + split; [done|]. intros (? & ? & _). by destruct Hnot.
  - intros k Hk. rewrite pickFields_lookup.
    rewrite decide_False; [done|]. by intros [? _].
  - intros fields' Hsub. apply map_subseteq_spec. intros k v.
    rewrite !pickFields_lookup.
    destruct (decide (k ∈ fields ∧ k ≠ "__proto__")) as [[Hin Hk]|]; [|done].
    intros Hv. rewrite decide_True; [done|]. split; [by apply Hsub|done].
Qed.


Lemma formatEventLine_own_response (event : EventWithCalendar.t)
    (attendees : list Attendee.t) (a : Attendee.t) (rs : string) :
  CalendarEvent.attendees (EventWithCalendar.event event) = Some attendees →
  List.find isSelf attendees = Some a →
  Attendee.responseStatus a = Some rs → rs ≠ "" →
  ∃ line, formatEventLine event = line +:+ " [" +:+ responseLabel rs +:+ "]".
Proof.
  intros Hatt Hself Hrs Hne. unfold formatEventLine. cbv zeta.
  rewrite Hatt. cbn [mbind option_bind]. rewrite Hself. cbn [mbind option_bind].
  rewrite Hrs. cbn [truthy jsOrDefault].
  apply String.eqb_neq in Hne. rewrite Hne. cbn [negb].
  destruct (truthy (CalendarEvent.htmlLink (EventWithCalendar.event event)));
    eexists; rewrite <- !append_assoc; reflexivity.
Qed.

(** X27: the entry line ends with the caller's own response, taken from
    the first attendee flagged as self, also for a cancelled event:
    [you: accepted], [you: declined], [you: maybe] or [you: not responded]
    for the four response values of the calendar service, and the response
    itself for any other non-empty value that is no name of a member of
    [Object.prototype]; without an own response a cancelled event's line
    ends with [[cancelled]]. *)
Theorem entry_line_status (event : EventWithCalendar.t) :
  (∀ attendees a rs label,
     CalendarEvent.attendees (EventWithCalendar.event event) = Some attendees →
     List.find isSelf attendees = Some a →
     Attendee.responseStatus a = Some rs →
     (rs, label) ∈ [ ("accepted", "you: accepted"); ("declined", "you: declined");
                     ("tentative", "you: maybe");
                     ("needsAction", "you: not responded") ] →
     ∃ line, formatEventLine event = line +:+ " [" +:+ label +:+ "]")
  ∧ (∀ attendees a rs,
       CalendarEvent.attendees (EventWithCalendar.event event) = Some attendees →
       List.find isSelf attendees = Some a →
       Attendee.responseStatus a = Some rs → rs ≠ "" →
       rs ∉ [ "accepted"; "declined"; "tentative"; "needsAction"; "__proto__" ] →
       rs ∉ objectPrototypeMembers →
       ∃ line, formatEventLine event = line +:+ " [" +:+ rs +:+ "]")
  ∧ (truthy ((CalendarEvent.attendees (EventWithCalendar.event event)
              ≫= List.find isSelf) ≫= Attendee.responseStatus) = false →
     CalendarEvent.status (EventWithCalendar.event event) = Some "cancelled" →
     ∃ line, formatEventLine event = line +:+ " [cancelled]").
Proof.
  split; [|split].
  - intros attendees a rs label Hatt Hself Hrs Hlabel.
    assert (rs ≠ "" ∧ responseLabel rs = label) as [Hne <-].
    { rewrite !elem_of_cons, elem_of_nil in Hlabel.
      destruct Hlabel as [[= -> ->]|[[= -> ->]|[[= -> ->]|[[= -> ->]|[]]]]]; done. }
    by eapply formatEventLine_own_response.
  - intros attendees a rs Hatt Hself Hrs Hne Hfour Hproto.
    assert (responseLabel rs = rs) as Hlabel.
    { unfold responseLabel, responseMap.
      rewrite !not_elem_of_cons in Hfour. destruct Hfour as (H1 & H2 & H3 & H4 & H5 & _).
      apply String.eqb_neq in H1, H2, H3, H4, H5. rewrite H1, H2, H3, H4, H5.
      destruct (existsb (String.eqb rs) objectPrototypeMembers) eqn:Hex; [|done].
      apply existsb_exists in Hex as (name & Hin & ->%String.eqb_eq).
      by apply list_elem_of_In in Hin. }
    destruct (formatEventLine_own_response event attendees a rs Hatt Hself Hrs Hne)
      as [line Hline].
    exists line. by rewrite Hline, Hlabel.
  - intros Hnone Hcancelled. unfold formatEventLine. cbv zeta.
    rewrite Hnone, Hcancelled. rewrite bool_decide_eq_true_2 by done.
    destruct (truthy (CalendarEvent.htmlLink (EventWithCalendar.event event)));
      eexists; rewrite <- !append_assoc; reflexivity.
Qed.

End Handler.

(** * The claims on a concrete service *)

(** C1: a search of the single calendar ["primary"] for ["barber"] finds
    one event while the service hands out the page token ["NEXT"]; the
    rendered text has no page-token line, yet the structured payload still
    carries the token. *)
Theorem C1_structured_payload_keeps_token :
  let result :=
    (handler Rfc3339.getTime Engine.toLowerCase Engine.Function_toString Fixtures.service
        Fixtures.searchBarber Fixtures.context).2 in
  (gather Fixtures.service Fixtures.searchBarber Fixtures.context).2
  = inr ([calendarOfId "primary"],
         [SearchResult.mk (calendarOfId "primary")
            (map (withCalendar (calendarOfId "primary"))
               [Fixtures.barber; Fixtures.lunch; Fixtures.holiday; Fixtures.note])
            (Some "NEXT") None])
  ∧ texts result
    = [ join (String "010" "")
          [ foundLine 1 false;
            "- Barbershop appointment — 2025-12-06T19:00:00Z (Primary)";
            noteLine ] ]
  ∧ structuredToken result = Some "NEXT".
Proof. vm_compute. done. Qed.

(** C2, as stated, fails: under the selector ["all"] the validation error
    comes after the [listCalendars] call, and a [pageToken] that is the
    empty string is not rejected at all. *)
Lemma C2_counterexample :
  handler Rfc3339.getTime Engine.toLowerCase Engine.Function_toString Fixtures.service
      Fixtures.pageOfEverything Fixtures.context
  = ([CallListCalendars], paginationError)
  ∧ Args.pageToken Fixtures.emptyPageToken = Some ""
  ∧ ToolResult.isError
      (handler Rfc3339.getTime Engine.toLowerCase Engine.Function_toString Fixtures.service
          Fixtures.emptyPageToken Fixtures.context).2
    = None
  ∧ map isListEvents
      (handler Rfc3339.getTime Engine.toLowerCase Engine.Function_toString Fixtures.service
          Fixtures.emptyPageToken Fixtures.context).1
    = [true; true].
Proof. vm_compute. done. Qed.

(** C2 on the fixture: a page of ["all"] is rejected after the listing of
    three readable calendars. *)
Lemma C2_pagination_guard_witness :
  authenticated Fixtures.context
  ∧ Args.pageToken Fixtures.pageOfEverything = Some "NEXT"
  ∧ "NEXT" ≠ ""
  ∧ ∃ cals,
      (resolveCalendars (clientOf Fixtures.service Fixtures.context)
         Fixtures.pageOfEverything).2 = Returned cals
      ∧ length cals = 3
      ∧ handler Rfc3339.getTime Engine.toLowerCase Engine.Function_toString Fixtures.service
          Fixtures.pageOfEverything Fixtures.context
        = ([CallListCalendars], paginationError).
Proof.
  assert (authenticated Fixtures.context) as Hauth.
  { exists "ya29.token". split; [reflexivity|discriminate]. }
  split; [exact Hauth|]. split; [reflexivity|]. split; [discriminate|].
  eexists. split; [vm_compute; reflexivity|]. split; [reflexivity|].
  refine (proj1 (C2_pagination_guard Rfc3339.getTime Engine.toLowerCase
      Engine.Function_toString Fixtures.service
                   Fixtures.pageOfEverything Fixtures.context "NEXT" _
                   Hauth _ _ _ _)).
  - reflexivity.
  - discriminate.
  - vm_compute; reflexivity.
  - simpl; lia.
Defined.

(** C3, as stated, fails: with an explicit list of calendars, and under
    ["all"] with a single calendar searched without error, the fetch of
    ["home"] fails and the result, which is not an error, does not mention
    the calendar anywhere in its text. *)
Lemma C3_counterexample :
  (let result :=
     (handler Rfc3339.getTime Engine.toLowerCase Engine.Function_toString Fixtures.service
         Fixtures.searchWorkAndHome
        Fixtures.context).2 in
   failedCalendars
     (searchAll (clientOf Fixtures.service Fixtures.context) Fixtures.searchWorkAndHome
        [calendarOfId "work"; calendarOfId "home"]) = ["home"]
   ∧ ToolResult.isError result = None
   ∧ existsb (fun text => includes text "home") (texts result) = false)
  ∧ (let result :=
       (handler Rfc3339.getTime Engine.toLowerCase Engine.Function_toString
           Fixtures.pairService Fixtures.searchEverything
          Fixtures.context).2 in
     ∃ cals,
       (resolveCalendars (clientOf Fixtures.pairService Fixtures.context)
          Fixtures.searchEverything).2 = Returned cals
       ∧ failedCalendars
           (searchAll (clientOf Fixtures.pairService Fixtures.context)
              Fixtures.searchEverything cals) = ["Home"]
       ∧ ToolResult.isError result = None
       ∧ existsb (fun text => includes text "Home") (texts result) = false).
Proof.
  split; [by vm_compute|].
  eexists. split; [vm_compute; reflexivity|]. by vm_compute.
Qed.

(** C3 on the fixture: under ["all"] two calendars are searched, ["home"]
    fails, and the summary names it. *)
Lemma C3_failed_calendars_listed_witness :
  ∃ calls cals results,
    gather Fixtures.service Fixtures.searchEverything Fixtures.context
    = (calls, inr (cals, results))
    ∧ Args.calendarId Fixtures.searchEverything = CalId "all"
    ∧ searchedCalendars results = ["Work"; "Team"]
    ∧ failedCalendars results = ["Home"]
    ∧ failedLine results
      ∈ renderLines Rfc3339.getTime Engine.toLowerCase Engine.Function_toString
          Fixtures.searchEverything cals results
    ∧ includes (failedLine results) "Home" = true.
Proof.
  eexists _, _, _. split; [vm_compute; reflexivity|].
  split; [reflexivity|]. split; [reflexivity|]. split; [reflexivity|].
  edestruct (C3_failed_calendars_listed Rfc3339.getTime Engine.toLowerCase
      Engine.Function_toString Fixtures.service
               Fixtures.searchEverything Fixtures.context)
    as (_ & _ & Hline & Hnames).
  - vm_compute; reflexivity.
  - reflexivity.
  - vm_compute; lia.
  - discriminate.
  - split; [exact Hline|]. reflexivity.
Defined.


(** C9 on the fixture: the calendar with role [freeBusyReader] is left out. *)
Lemma C9_all_keeps_readable_witness :
  Args.calendarId Fixtures.searchEverything = CalId "all"
  ∧ Client.listCalendars Fixtures.client = Returned Fixtures.calendars
  ∧ ∃ resolved,
      resolveCalendars Fixtures.client Fixtures.searchEverything
      = ([CallListCalendars], Returned resolved)
      ∧ map CalendarListItem.id resolved = ["work"; "home"; "team"]
      ∧ resolved `sublist_of` CalendarList.items Fixtures.calendars.
Proof.
  split; [reflexivity|]. split; [reflexivity|].
  destruct (C9_all_keeps_readable Fixtures.searchEverything Fixtures.client
              Fixtures.calendars eq_refl eq_refl)
    as (resolved & Hres & Hsub & _ & Heq).
  exists resolved. split; [exact Hres|]. split; [|exact Hsub].
  rewrite Heq. vm_compute; reflexivity.
Defined.

(** C10 on the fixture: with [fields = []] the projected barbershop event
    keeps its calendar id. *)
Lemma C10_empty_fields_use_default_witness :
  ∃ payload item,
    ToolResult.structuredContent
      (handler Rfc3339.getTime Engine.toLowerCase Engine.Function_toString Fixtures.service
         (withFields (Some []) Fixtures.searchBarber) Fixtures.context).2
    = Some payload
    ∧ item ∈ StructuredContent.items payload
    ∧ item ≠ ∅
    ∧ item !! "calendarId" = Some (VString "primary").
Proof.
  destruct (C10_empty_fields_use_default Rfc3339.getTime Engine.toLowerCase
      Engine.Function_toString Fixtures.service
              Fixtures.searchBarber Fixtures.context) as (_ & _ & Hitems).
  eexists _, (pickFields (withCalendar (calendarOfId "primary") Fixtures.barber)
                DEFAULT_FIELDS).
  split; [reflexivity|].
  assert (pickFields (withCalendar (calendarOfId "primary") Fixtures.barber) DEFAULT_FIELDS
          ∈ StructuredContent.items
              (StructuredContent.mk
                 (filteredItems Rfc3339.getTime Engine.toLowerCase
                    (withFields (Some []) Fixtures.searchBarber)
                    (searchAll (clientOf Fixtures.service Fixtures.context)
                       Fixtures.searchBarber [calendarOfId "primary"]))
                 (searchedCalendars
                    (searchAll (clientOf Fixtures.service Fixtures.context)
                       Fixtures.searchBarber [calendarOfId "primary"]))
                 (Some "NEXT"))) as Hin.
  { apply list_elem_of_In. simpl. left. reflexivity. }
  split; [exact Hin|].
  destruct (Hitems _ _ eq_refl Hin) as (Hne & event & Hev & Hcal).
  split; [exact Hne|]. vm_compute; reflexivity.
Defined.

(** * The further properties on the concrete service *)

(** X1 on the fixture: an empty token stops the search of all calendars. *)
Lemma unauthenticated_sends_nothing_witness :
  Context.providerToken Fixtures.noToken = Some ""
  ∧ handler Rfc3339.getTime Engine.toLowerCase Engine.Function_toString Fixtures.service
      Fixtures.searchEverything Fixtures.noToken
    = ([], authRequired).
Proof.
  split; [reflexivity|].
  refine (proj1 (unauthenticated_sends_nothing Rfc3339.getTime Engine.toLowerCase
      Engine.Function_toString Fixtures.service
                   Fixtures.searchEverything Fixtures.noToken _)).
  right. reflexivity.
Defined.

(** X2 on the fixture: the listing fails with ["Backend Error"]. *)
Lemma listing_failure_fails_search_witness :
  authenticated Fixtures.context
  ∧ Args.calendarId Fixtures.searchEverything = CalId "all"
  ∧ Client.listCalendars (clientOf Fixtures.brokenService Fixtures.context)
    = Threw "Backend Error"
  ∧ texts (handler Rfc3339.getTime Engine.toLowerCase Engine.Function_toString
      Fixtures.brokenService Fixtures.searchEverything
             Fixtures.context).2
    = [ "Failed to search events: Backend Error" ].
Proof.
  assert (authenticated Fixtures.context) as Hauth.
  { exists "ya29.token". split; [reflexivity|discriminate]. }
  split; [exact Hauth|]. split; [reflexivity|]. split; [reflexivity|].
  destruct (listing_failure_fails_search Rfc3339.getTime Engine.toLowerCase
      Engine.Function_toString Fixtures.brokenService
              Fixtures.searchEverything Fixtures.context "Backend Error"
              Hauth eq_refl eq_refl) as (_ & Htext & _).
  exact Htext.
Defined.

(** X4 on the fixture: three readable calendars, three fetches after the
    listing. *)
Lemma one_fetch_per_calendar_witness :
  ∃ calls cals results,
    gather Fixtures.service Fixtures.searchEverything Fixtures.context
    = (calls, inr (cals, results))
    ∧ map ListEventsParams.calendarId (listEventsOf calls) = ["work"; "home"; "team"]
    ∧ map ListEventsParams.calendarId (listEventsOf calls)
      = map CalendarListItem.id cals.
Proof.
  eexists _, _, _. split; [vm_compute; reflexivity|]. split; [reflexivity|].
  edestruct (one_fetch_per_calendar Rfc3339.getTime Engine.toLowerCase
      Engine.Function_toString Fixtures.service
               Fixtures.searchEverything Fixtures.context)
    as (_ & _ & Hids & _).
  - vm_compute; reflexivity.
  - exact Hids.
Defined.

(** X5 on the fixture: the ids ["work"] and ["home"] are fetched in that
    order. *)
Lemma explicit_ids_searched_as_given_witness :
  authenticated Fixtures.context
  ∧ Args.calendarId Fixtures.searchWorkAndHome = CalIds ["work"; "home"]
  ∧ truthy (Args.pageToken Fixtures.searchWorkAndHome) = false
  ∧ map ListEventsParams.calendarId
      (listEventsOf
         (handler Rfc3339.getTime Engine.toLowerCase Engine.Function_toString
             Fixtures.service Fixtures.searchWorkAndHome
            Fixtures.context).1)
    = ["work"; "home"].
Proof.
  assert (authenticated Fixtures.context) as Hauth.
  { exists "ya29.token". split; [reflexivity|discriminate]. }
  split; [exact Hauth|]. split; [reflexivity|]. split; [reflexivity|].
  destruct (explicit_ids_searched_as_given Rfc3339.getTime Engine.toLowerCase
      Engine.Function_toString Fixtures.service
              Fixtures.searchWorkAndHome Fixtures.context ["work"; "home"]
              Hauth eq_refl (or_introl eq_refl)) as (results & _ & Hids & _).
  exact Hids.
Defined.

(** X6 on the fixture: the page ["NEXT"] of ["primary"] is asked for. *)
Lemma single_calendar_forwards_page_token_witness :
  authenticated Fixtures.context
  ∧ Args.calendarId Fixtures.pagePrimary = CalId "primary"
  ∧ "primary" ≠ "all"
  ∧ ∃ params,
      (handler Rfc3339.getTime Engine.toLowerCase Engine.Function_toString Fixtures.service
          Fixtures.pagePrimary Fixtures.context).1
      = [CallListEvents params]
      ∧ ListEventsParams.pageToken params = Some "NEXT".
Proof.
  assert (authenticated Fixtures.context) as Hauth.
  { exists "ya29.token". split; [reflexivity|discriminate]. }
  split; [exact Hauth|]. split; [reflexivity|]. split; [discriminate|].
  destruct (single_calendar_forwards_page_token Rfc3339.getTime Engine.toLowerCase
      Engine.Function_toString Fixtures.service
              Fixtures.pagePrimary Fixtures.context "primary" Hauth eq_refl)
    as (params & Hcalls & _ & Htoken & _).
  - discriminate.
  - exists params. split; [exact Hcalls|exact Htoken].
Defined.

(** X7 on the fixture: the fetch that carries ["NEXT"] is the only one. *)
Lemma page_token_travels_alone_witness :
  let params := listEventsParams Fixtures.pagePrimary (calendarOfId "primary") in
  CallListEvents params
    ∈ (handler Rfc3339.getTime Engine.toLowerCase Engine.Function_toString Fixtures.service
        Fixtures.pagePrimary Fixtures.context).1
  ∧ truthy (ListEventsParams.pageToken params) = true
  ∧ listEventsOf
      (handler Rfc3339.getTime Engine.toLowerCase Engine.Function_toString Fixtures.service
          Fixtures.pagePrimary Fixtures.context).1
    = [params].
Proof.
  intros params.
  assert (CallListEvents params
            ∈ (handler Rfc3339.getTime Engine.toLowerCase Engine.Function_toString
                Fixtures.service Fixtures.pagePrimary
                 Fixtures.context).1) as Hcall.
  { apply list_elem_of_In. simpl. left. reflexivity. }
  split; [exact Hcall|]. split; [reflexivity|].
  exact (page_token_travels_alone Rfc3339.getTime Engine.toLowerCase Engine.Function_toString
      Fixtures.service Fixtures.pagePrimary
           Fixtures.context params Hcall eq_refl).
Defined.

(** X8 on the fixture: the fetch for ["barber"] asks for start-time order. *)
Lemma fetch_forwards_request_witness :
  let params := listEventsParams Fixtures.searchBarber (calendarOfId "primary") in
  CallListEvents params
    ∈ (handler Rfc3339.getTime Engine.toLowerCase Engine.Function_toString Fixtures.service
        Fixtures.searchBarber Fixtures.context).1
  ∧ ListEventsParams.orderBy params = Some startTime
  ∧ ListEventsParams.singleEvents params = Some true.
Proof.
  intros params.
  assert (CallListEvents params
            ∈ (handler Rfc3339.getTime Engine.toLowerCase Engine.Function_toString
                Fixtures.service Fixtures.searchBarber
                 Fixtures.context).1) as Hcall.
  { apply list_elem_of_In. simpl. left. reflexivity. }
  split; [exact Hcall|].
  destruct (fetch_forwards_request Rfc3339.getTime Engine.toLowerCase
      Engine.Function_toString Fixtures.service Fixtures.searchBarber
              Fixtures.context params Hcall)
    as (_ & _ & _ & Hsingle & _ & Horder & _).
  split; [exact (Horder eq_refl eq_refl)|exact Hsingle].
Defined.


(** X10 on the fixture: the barbershop appointment returned for
    ["barber"] was fetched from ["primary"]. *)
Lemma returned_events_come_from_fetches_witness :
  ∃ calls cals results,
    gather Fixtures.service Fixtures.searchBarber Fixtures.context
    = (calls, inr (cals, results))
    ∧ withCalendar (calendarOfId "primary") Fixtures.barber
        ∈ allEvents Rfc3339.getTime Engine.toLowerCase Fixtures.searchBarber results
    ∧ ∃ calendar page,
        calendar ∈ cals
        ∧ Client.listEvents (clientOf Fixtures.service Fixtures.context)
            (listEventsParams Fixtures.searchBarber calendar) = Returned page
        ∧ Fixtures.barber ∈ ListEventsResult.items page.
Proof.
  eexists _, _, _. split; [vm_compute; reflexivity|].
  assert (withCalendar (calendarOfId "primary") Fixtures.barber
            ∈ allEvents Rfc3339.getTime Engine.toLowerCase Fixtures.searchBarber
                (searchAll (clientOf Fixtures.service Fixtures.context)
                   Fixtures.searchBarber [calendarOfId "primary"])) as Hin.
  { apply list_elem_of_In. vm_compute. left. reflexivity. }
  split; [exact Hin|].
  edestruct (returned_events_come_from_fetches Rfc3339.getTime Engine.toLowerCase
      Fixtures.service
               Fixtures.searchBarber Fixtures.context)
    as (calendar & page & Hcal & Hfetch & Hev & _).
  - vm_compute; reflexivity.
  - exact Hin.
  - exists calendar, page. split; [exact Hcal|]. split; [exact Hfetch|exact Hev].
Defined.

(** X11 on the fixture: four events fetched, all four returned. *)
Lemma nothing_lost_below_cap_witness :
  let results :=
    searchAll (clientOf Fixtures.service Fixtures.context) Fixtures.searchWorkAndHome
      [calendarOfId "work"; calendarOfId "home"] in
  (Z.of_nat (length (filterByQuery Engine.toLowerCase Fixtures.searchWorkAndHome
      (mergedEvents results)))
   ≤ requestedMax Fixtures.searchWorkAndHome)%Z
  ∧ length (allEvents Rfc3339.getTime Engine.toLowerCase Fixtures.searchWorkAndHome results) = 4
  ∧ allEvents Rfc3339.getTime Engine.toLowerCase Fixtures.searchWorkAndHome results
    ≡ₚ mergedEvents results.
Proof.
  intros results.
  assert (Z.of_nat (length (filterByQuery Engine.toLowerCase Fixtures.searchWorkAndHome
                              (mergedEvents results)))
          ≤ requestedMax Fixtures.searchWorkAndHome)%Z as Hlen.
  { vm_compute. discriminate. }
  split; [exact Hlen|]. split; [reflexivity|].
  destruct (nothing_lost_below_cap Rfc3339.getTime Engine.toLowerCase
      Fixtures.searchWorkAndHome results
              Hlen) as (_ & _ & Hall).
  exact (Hall eq_refl).
Defined.

(** X12 on the fixture: under ["updated"] the events of ["work"] and
    ["team"] stay in fetch order. *)
Lemma unsorted_keeps_merge_order_witness :
  let results :=
    searchAll (clientOf Fixtures.service Fixtures.context) Fixtures.searchUpdated
      [calendarOfId "work"; calendarOfId "team"] in
  Args.orderBy Fixtures.searchUpdated = Some updated
  ∧ allEvents Rfc3339.getTime Engine.toLowerCase Fixtures.searchUpdated results =
      mergedEvents results
  ∧ allEvents Rfc3339.getTime Engine.toLowerCase Fixtures.searchUpdated results
    `prefix_of` filterByQuery Engine.toLowerCase Fixtures.searchUpdated (mergedEvents results).
Proof.
  intros results. split; [reflexivity|]. split; [vm_compute; reflexivity|].
  exact (unsorted_keeps_merge_order Rfc3339.getTime Engine.toLowerCase Fixtures.searchUpdated
      results
           (or_intror eq_refl)).
Defined.

(** X13 on the fixture: a page already in start order comes back as it is. *)
Lemma ascending_input_is_kept_witness :
  let results :=
    searchAll (clientOf Fixtures.orderedService Fixtures.context) Fixtures.searchPrimary
      [calendarOfId "primary"] in
  (∀ e, e ∈ mergedEvents results → resolvableStart Rfc3339.getTime e)
  ∧ ascending (startInstant Rfc3339.getTime)
      (filterByQuery Engine.toLowerCase Fixtures.searchPrimary (mergedEvents results))
  ∧ allEvents Rfc3339.getTime Engine.toLowerCase Fixtures.searchPrimary results
    `prefix_of` filterByQuery Engine.toLowerCase Fixtures.searchPrimary (mergedEvents results).
Proof.
  intros results.
  assert (∀ e, e ∈ mergedEvents results → resolvableStart Rfc3339.getTime e) as Hres.
  { intros e He. apply list_elem_of_In in He. simpl in He.
    destruct He as [<-|[<-|[<-|[<-|[]]]]]; eexists; vm_compute; reflexivity. }
  assert (ascending (startInstant Rfc3339.getTime)
            (filterByQuery Engine.toLowerCase Fixtures.searchPrimary (mergedEvents results)))
                as Hasc.
  { apply StronglySorted_ascending.
    repeat first [ apply SSorted_nil | apply SSorted_cons
                 | apply Forall_nil_2 | apply Forall_cons_2 ];
      vm_compute; discriminate. }
  split; [exact Hres|]. split; [exact Hasc|].
  exact (ascending_input_is_kept Rfc3339.getTime Engine.toLowerCase Fixtures.searchPrimary
      results
           Hres Hasc).
Defined.

(** X14 on the fixture: ["Work"] and ["Team"] searched, ["Home"] failed. *)
Lemma calendars_searched_or_failed_witness :
  ∃ calls cals results,
    gather Fixtures.service Fixtures.searchEverything Fixtures.context
    = (calls, inr (cals, results))
    ∧ searchedCalendars results = ["Work"; "Team"]
    ∧ failedCalendars results = ["Home"]
    ∧ (searchedCalendars results ++ failedCalendars results)%list
      ≡ₚ map CalendarListItem.summary cals.
Proof.
  eexists _, _, _. split; [vm_compute; reflexivity|].
  split; [reflexivity|]. split; [reflexivity|].
  edestruct (calendars_searched_or_failed Rfc3339.getTime Engine.toLowerCase
      Engine.Function_toString Fixtures.service
               Fixtures.searchEverything Fixtures.context)
    as (Hperm & _ & _).
  - vm_compute; reflexivity.
  - exact Hperm.
Defined.

(** X15 on the fixture: the search of ["primary"] without a query offers
    the token ["NEXT"]. *)
Lemma page_token_offered_witness :
  let result :=
    searchCalendar (clientOf Fixtures.service Fixtures.context) Fixtures.searchPrimary
      (calendarOfId "primary") in
  truthy (Args.query Fixtures.searchPrimary) = false
  ∧ SearchResult.nextPageToken result = Some "NEXT"
  ∧ "NEXT" ≠ ""
  ∧ allEvents Rfc3339.getTime Engine.toLowerCase Fixtures.searchPrimary [result] ≠ []
  ∧ pageTokenLine "NEXT"
      ∈ renderLines Rfc3339.getTime Engine.toLowerCase Engine.Function_toString
          Fixtures.searchPrimary [calendarOfId "primary"]
          [result].
Proof.
  intros result.
  assert (allEvents Rfc3339.getTime Engine.toLowerCase Fixtures.searchPrimary [result] ≠ [])
      as Hsome.
  { vm_compute. discriminate. }
  split; [reflexivity|]. split; [reflexivity|]. split; [discriminate|].
  split; [exact Hsome|].
  refine (proj1 (page_token_offered Rfc3339.getTime Engine.toLowerCase
      Engine.Function_toString Fixtures.searchPrimary
                   (calendarOfId "primary") result "NEXT" eq_refl eq_refl _ Hsome)).
  discriminate.
Defined.

(** X16 on the fixture: three calendars, eight events, two returned and
    the advice to raise [maxResults]. *)
Lemma many_calendars_offer_no_token_witness :
  ∃ calls cals results,
    gather Fixtures.service Fixtures.searchEverything Fixtures.context
    = (calls, inr (cals, results))
    ∧ validMaxResults Fixtures.searchEverything
    ∧ length cals = 3
    ∧ structuredToken (respond Rfc3339.getTime Engine.toLowerCase Engine.Function_toString
        Fixtures.searchEverything cals results)
      = None
    ∧ increaseLine ∈ renderLines Rfc3339.getTime Engine.toLowerCase Engine.Function_toString
        Fixtures.searchEverything cals results.
Proof.
  assert (validMaxResults Fixtures.searchEverything) as Hvalid.
  { unfold validMaxResults. simpl. lia. }
  eexists _, _, _. split; [vm_compute; reflexivity|].
  split; [exact Hvalid|]. split; [reflexivity|].
  edestruct (many_calendars_offer_no_token Rfc3339.getTime Engine.toLowerCase
      Engine.Function_toString Fixtures.searchEverything)
    as (Hnone & _ & Hmore).
  - exact Hvalid.
  - instantiate (1 := [Fixtures.work; CalendarListItem.mk "home" "Home" "reader";
                       CalendarListItem.mk "team" "Team" "writer"]).
    simpl. lia.
  - split; [exact Hnone|]. apply Hmore. vm_compute; reflexivity.
Defined.

(** X17 on the fixture: nothing matches ["zebra"], and the token ["NEXT"]
    of the service is not hinted at. *)
Lemma no_events_no_hint_witness :
  let result :=
    searchCalendar (clientOf Fixtures.service Fixtures.context) Fixtures.searchZebra
      (calendarOfId "primary") in
  allEvents Rfc3339.getTime Engine.toLowerCase Fixtures.searchZebra [result] = []
  ∧ SearchResult.nextPageToken result = Some "NEXT"
  ∧ renderLines Rfc3339.getTime Engine.toLowerCase Engine.Function_toString
      Fixtures.searchZebra [calendarOfId "primary"] [result]
    = [ "No events found matching the criteria."; noteLine ].
Proof.
  intros result.
  assert (allEvents Rfc3339.getTime Engine.toLowerCase Fixtures.searchZebra [result] = []) as
      Hnone.
  { vm_compute. reflexivity. }
  split; [exact Hnone|]. split; [reflexivity|].
  destruct (no_events_no_hint Rfc3339.getTime Engine.toLowerCase Engine.Function_toString
      Fixtures.searchZebra
              [calendarOfId "primary"] [result] Hnone) as (Hlines & _).
  exact Hlines.
Defined.

(** X19 on the fixture: an empty list of ids. *)
Lemma no_calendars_no_events_witness :
  gather Fixtures.service Fixtures.searchNothing Fixtures.context = ([], inr ([], []))
  ∧ ToolResult.structuredContent
      (handler Rfc3339.getTime Engine.toLowerCase Engine.Function_toString Fixtures.service
          Fixtures.searchNothing Fixtures.context).2
    = Some (StructuredContent.mk [] [] None).
Proof.
  split; [reflexivity|].
  destruct (no_calendars_no_events Rfc3339.getTime Engine.toLowerCase
      Engine.Function_toString Fixtures.service
              Fixtures.searchNothing Fixtures.context [] [] eq_refl)
    as (_ & _ & Hpayload & _).
  exact Hpayload.
Defined.

(** X20 on the fixture: ["id"; "summary"] and ["summary"; "id"; "id"]
    project alike. *)
Lemma projection_ignores_order_and_repeats_witness :
  (∀ k : string, k ∈ ["id"; "summary"] ↔ k ∈ ["summary"; "id"; "id"])
  ∧ pickFields (withCalendar Fixtures.work Fixtures.barber) ["id"; "summary"]
    = pickFields (withCalendar Fixtures.work Fixtures.barber) ["summary"; "id"; "id"].
Proof.
  assert (∀ k : string, k ∈ ["id"; "summary"] ↔ k ∈ ["summary"; "id"; "id"]) as Hsame.
  { intros k. rewrite !elem_of_cons, !elem_of_nil. tauto. }
  split; [exact Hsame|].
  exact (projection_ignores_order_and_repeats
           (withCalendar Fixtures.work Fixtures.barber) _ _ Hsame).
Defined.

(** X26 on the fixture: eight events pass, [maxResults = 2], two returned. *)
Lemma returns_as_many_as_allowed_witness :
  let results :=
    searchAll (clientOf Fixtures.service Fixtures.context) Fixtures.searchEverything
      [Fixtures.work; CalendarListItem.mk "home" "Home" "reader";
       CalendarListItem.mk "team" "Team" "writer"] in
  validMaxResults Fixtures.searchEverything
  ∧ length (filterByQuery Engine.toLowerCase Fixtures.searchEverything (mergedEvents
      results)) = 8
  ∧ Z.of_nat (length (allEvents Rfc3339.getTime Engine.toLowerCase Fixtures.searchEverything
      results))
    = Z.min 2 8.
Proof.
  intros results.
  assert (validMaxResults Fixtures.searchEverything) as Hvalid.
  { unfold validMaxResults. simpl. lia. }
  split; [exact Hvalid|]. split; [reflexivity|].
  exact (proj1 (returns_as_many_as_allowed Rfc3339.getTime Engine.toLowerCase
      Fixtures.searchEverything
                  results Hvalid)).
Defined.

(** * The response on the concrete service *)

(** C4 on the fixture: the search for ["barber"] returns the barbershop
    appointment only. *)
Lemma C4_returned_events_match_query_witness :
  ∃ calls cals results,
    gather Fixtures.service Fixtures.searchBarber Fixtures.context
    = (calls, inr (cals, results))
    ∧ Args.query Fixtures.searchBarber = Some "barber"
    ∧ "barber" ≠ ""
    ∧ allEvents Rfc3339.getTime Engine.toLowerCase Fixtures.searchBarber results
      = [withCalendar (calendarOfId "primary") Fixtures.barber]
    ∧ ∀ e,
        e ∈ allEvents Rfc3339.getTime Engine.toLowerCase Fixtures.searchBarber results →
        ∃ f, candidateField (EventWithCalendar.event e) f
             ∧ f ≠ "" ∧ containsIgnoreCase Engine.toLowerCase f "barber".
Proof.
  eexists _, _, _. split; [vm_compute; reflexivity|].
  split; [reflexivity|]. split; [discriminate|]. split; [vm_compute; reflexivity|].
  edestruct (C4_returned_events_match_query Rfc3339.getTime Engine.toLowerCase
               Engine.Function_toString Fixtures.service Fixtures.searchBarber
               Fixtures.context) as (_ & _ & _ & Hmatch & _).
  - vm_compute; reflexivity.
  - reflexivity.
  - discriminate.
  - exact Hmatch.
Defined.

(** C5 on the fixture: eight events merged, [maxResults = 2], two
    returned, and the text says that more are available. *)
Lemma C5_cap_and_more_available_witness :
  ∃ calls cals results,
    Args.maxResults Fixtures.searchEverything = Some 2%Z
    ∧ (1 ≤ 2 ≤ 250)%Z
    ∧ gather Fixtures.service Fixtures.searchEverything Fixtures.context
      = (calls, inr (cals, results))
    ∧ length (filterByQuery Engine.toLowerCase Fixtures.searchEverything
                (mergedEvents results)) = 8
    ∧ ∃ payload lines,
        ToolResult.structuredContent
          (handler Rfc3339.getTime Engine.toLowerCase Engine.Function_toString
             Fixtures.service Fixtures.searchEverything Fixtures.context).2
        = Some payload
        ∧ texts
            (handler Rfc3339.getTime Engine.toLowerCase Engine.Function_toString
               Fixtures.service Fixtures.searchEverything Fixtures.context).2
          = [ join (String "010" "") lines ]
        ∧ length (StructuredContent.items payload) = 2
        ∧ foundLine 2 true ∈ lines.
Proof.
  eexists _, _, _. split; [reflexivity|]. split; [lia|].
  split; [vm_compute; reflexivity|]. split; [reflexivity|].
  edestruct (C5_cap_and_more_available Rfc3339.getTime Engine.toLowerCase
               Engine.Function_toString Fixtures.service Fixtures.searchEverything
               Fixtures.context) as (payload & lines & Hp & Ht & _ & _ & Hlen & Hmore & _).
  - reflexivity.
  - lia.
  - vm_compute; reflexivity.
  - exists payload, lines. split; [exact Hp|]. split; [exact Ht|].
    assert (length (StructuredContent.items payload) = 2) as Hlen2.
    { rewrite Hlen. reflexivity. }
    split; [exact Hlen2|]. rewrite <- Hlen2. apply Hmore. vm_compute; reflexivity.
Defined.

(** C7, as stated, fails: a query that is the empty string counts as no
    query; with [maxResults = 20] the fetch asks for 40 events, not for the
    200 of the larger multiplier and floor. *)
Lemma C7_counterexample :
  Args.query Fixtures.emptyQuery = Some ""
  ∧ Args.maxResults Fixtures.emptyQuery = Some 20%Z
  ∧ map ListEventsParams.maxResults
      (listEventsOf
         (handler Rfc3339.getTime Engine.toLowerCase Engine.Function_toString
            Fixtures.service Fixtures.emptyQuery Fixtures.context).1)
    = [40%Z]
  ∧ Z.min (Z.max (20 * 10) 100) 250 = 200%Z.
Proof. vm_compute. done. Qed.

(** C7 on the fixture: with the query ["barber"] and [maxResults = 20] the
    fetch asks for 200 events. *)
Lemma C7_fetch_cap_witness :
  let params := listEventsParams Fixtures.searchTwenty (calendarOfId "primary") in
  default 50%Z (Args.maxResults Fixtures.searchTwenty) = 20%Z
  ∧ CallListEvents params
      ∈ (handler Rfc3339.getTime Engine.toLowerCase Engine.Function_toString
           Fixtures.service Fixtures.searchTwenty Fixtures.context).1
  ∧ ListEventsParams.maxResults params = 200%Z
  ∧ (ListEventsParams.maxResults params ≤ 250)%Z.
Proof.
  intros params.
  assert (CallListEvents params
            ∈ (handler Rfc3339.getTime Engine.toLowerCase Engine.Function_toString
                 Fixtures.service Fixtures.searchTwenty Fixtures.context).1) as Hcall.
  { apply list_elem_of_In. simpl. left. reflexivity. }
  split; [reflexivity|]. split; [exact Hcall|].
  destruct (C7_fetch_cap Rfc3339.getTime Engine.toLowerCase Engine.Function_toString
              Fixtures.service Fixtures.searchTwenty Fixtures.context params 20
              eq_refl Hcall) as (Hquery & _ & Hcap).
  split; [|exact Hcap].
  rewrite (Hquery "barber"); [reflexivity|reflexivity|discriminate].
Defined.

(** C8, as stated, fails: an undated event counts as time zero, which is
    not the earliest position when an event starts before 1970: the moon
    landing is returned before the undated note; and a start string that
    is no date gives NaN, not time zero. *)
Lemma C8_counterexample :
  let results :=
    searchAll (clientOf Fixtures.archiveService Fixtures.context) Fixtures.searchPrimary
      [calendarOfId "primary"] in
  gather Fixtures.archiveService Fixtures.searchPrimary Fixtures.context
  = ([CallListEvents (listEventsParams Fixtures.searchPrimary (calendarOfId "primary"))],
     inr ([calendarOfId "primary"], results))
  ∧ map EventWithCalendar.event (mergedEvents results) = [Fixtures.note; Fixtures.apollo]
  ∧ startString Fixtures.note = None
  ∧ map EventWithCalendar.event
      (allEvents Rfc3339.getTime Engine.toLowerCase Fixtures.searchPrimary results)
    = [Fixtures.apollo; Fixtures.note]
  ∧ List.filter isEntryLine
      (renderLines Rfc3339.getTime Engine.toLowerCase Engine.Function_toString
         Fixtures.searchPrimary [calendarOfId "primary"] results)
    = [ "- Moon landing — 1969-07-20 (Primary)";
        "- Unscheduled note — no date (Primary)" ]
  ∧ map (getEventStartTime Rfc3339.getTime) [Fixtures.apollo; Fixtures.note]
    = [Some (-14256000000)%Z; Some 0%Z]
  ∧ getEventStartTime Rfc3339.getTime Fixtures.unparsed = None.
Proof. vm_compute. done. Qed.

(** C8 on the fixture: the four events of ["work"] come out by start
    instant, the undated note first. *)
Lemma C8_sorted_by_start_witness :
  ∃ calls cals results,
    gather Fixtures.service Fixtures.searchWorkAndHome Fixtures.context
    = (calls, inr (cals, results))
    ∧ Args.singleEvents Fixtures.searchWorkAndHome ≠ Some false
    ∧ Args.orderBy Fixtures.searchWorkAndHome = None
    ∧ (∀ e, e ∈ mergedEvents results → resolvableStart Rfc3339.getTime e)
    ∧ map (startInstant Rfc3339.getTime)
        (allEvents Rfc3339.getTime Engine.toLowerCase Fixtures.searchWorkAndHome results)
      = [0; 1764892800000; 1764932400000; 1765047600000]%Z
    ∧ ascending (startInstant Rfc3339.getTime)
        (allEvents Rfc3339.getTime Engine.toLowerCase Fixtures.searchWorkAndHome results).
Proof.
  eexists _, _, _. split; [vm_compute; reflexivity|].
  split; [discriminate|]. split; [reflexivity|].
  assert (∀ e,
            e ∈ mergedEvents
                  (searchAll (clientOf Fixtures.service Fixtures.context)
                     Fixtures.searchWorkAndHome
                     [calendarOfId "work"; calendarOfId "home"]) →
            resolvableStart Rfc3339.getTime e) as Hres.
  { intros e He. apply list_elem_of_In in He. simpl in He.
    destruct He as [<-|[<-|[<-|[<-|[]]]]]; eexists; vm_compute; reflexivity. }
  split; [exact Hres|]. split; [vm_compute; reflexivity|].
  edestruct (C8_sorted_by_start Rfc3339.getTime Engine.toLowerCase
               Engine.Function_toString Fixtures.service Fixtures.searchWorkAndHome
               Fixtures.context) as (_ & _ & _ & Hasc & _).
  - vm_compute; reflexivity.
  - discriminate.
  - right; reflexivity.
  - exact Hres.
  - exact Hasc.
Defined.


(** X27 on the fixture: the declined, cancelled meeting shows the caller's
    response. *)
Lemma entry_line_status_witness :
  let event := withCalendar Fixtures.work Fixtures.cancelledMeeting in
  CalendarEvent.attendees Fixtures.cancelledMeeting
  = Some [Fixtures.organizerSeat; Fixtures.ownSeat]
  ∧ List.find isSelf [Fixtures.organizerSeat; Fixtures.ownSeat] = Some Fixtures.ownSeat
  ∧ Attendee.responseStatus Fixtures.ownSeat = Some "declined"
  ∧ formatEventLine Engine.Function_toString event
    = "- Review — 2025-12-07T09:00:00Z (Work) [you: declined]"
  ∧ ∃ line,
      formatEventLine Engine.Function_toString event = line +:+ " [you: declined]".
Proof.
  intros event.
  split; [reflexivity|]. split; [reflexivity|]. split; [reflexivity|].
  split; [vm_compute; reflexivity|].
  destruct (entry_line_status Engine.Function_toString event) as (Hown & _).
  refine (Hown [Fixtures.organizerSeat; Fixtures.ownSeat] Fixtures.ownSeat "declined"
            "you: declined" eq_refl eq_refl eq_refl _).
  apply list_elem_of_In. simpl. right. left. reflexivity.
Defined.
